(** * sink-receiver: fragment reassembly of the Kafka IPC client

    A shallow embedding of [client/client.go] (package [client]) and of the
    start-up path of [main.go], with the properties of the reassembly
    table, the fragment decoder, the telemetry unwrapper and the
    initialisation that the specification states.

    Conventions.
    - An [int32] is a [Z] in the range [int32_min .. int32_max]; the only
      arithmetic of the code, [CurrentChunkNumber + 1], wraps ([add32]).
    - A Go byte slice is [option (list byte)]: [None] is the [nil] slice,
      [Some l] a non-nil slice with the elements [l].  The code tests
      [data != nil], so the difference between [nil] and an empty non-nil
      slice is kept.
    - A Go map is a [gmap]; reading a missing key gives the zero value
      of the element type ([nil], [0]).
    - The mutex only serialises the accesses; the model is sequential.
    - [log.Printf] has no effect on the state and is left out. *)

From Stdlib Require Import ZArith String Strings.Byte Ascii List Lia.
From stdpp Require Import base option list strings gmap fin_maps.

Local Open Scope Z_scope.

(** ** Go values *)

Definition int32_min : Z := - 2 ^ 31.
Definition int32_max : Z := 2 ^ 31 - 1.

Definition is_int32 (z : Z) : Prop := int32_min <= z <= int32_max.

(** Two's complement wrap-around of a 32-bit signed integer. *)
Definition wrap32 (z : Z) : Z := (z + 2 ^ 31) mod 2 ^ 32 - 2 ^ 31.

(** [a + b] on [int32]. *)
Definition add32 (a b : Z) : Z := wrap32 (a + b).

Abbreviation slice := (option (list byte)).

(** The elements of a slice; [nil] has none. *)
Definition elems (s : slice) : list byte := default [] s.

(** [append(s, t...)]: appending no element gives [s] back (so [nil] stays
    [nil]); otherwise the result is a non-nil slice. *)
Definition append (s t : slice) : slice :=
  match elems t with
  | [] => s
  | e => Some (elems s ++ e)
  end.

(** [s != nil] *)
Definition not_nil (s : slice) : bool := bool_decide (is_Some s).

(** A byte literal, as in [[]byte("AB")]. *)
Definition bytes (s : string) : slice := Some (list_byte_of_string s).

(** ** Errors

    One constructor for each [fmt.Errorf] of the package; the argument is
    the text of the wrapped library error. *)
Inductive error : Type :=
  | ErrInvalidRpc (cause : string)
  | ErrInvalidSink (cause : string)
  | ErrInvalidTelemetry (cause : string)
  | ErrInvalidNetflow (cause : string)
  | ErrAlreadyInitialized
  | ErrInvalidIPC (ipc : string)
  | ErrCannotCreateConsumer (cause : string)
  | ErrCannotSubscribe (topic : string) (cause : string).

(** ** Messages of the generated protobuf packages

    The packages [protobuf/rpc], [protobuf/sink], [protobuf/telemetry] and
    [protobuf/netflow] are generated code that is not part of the sources
    at hand.  The records keep the fields that [client.go] reads. *)
Module rpc.
Record RpcMessageProto : Type := {
  RpcId : string;
  RpcContent : slice;
  CurrentChunkNumber : Z;
  TotalChunks : Z
}.
End rpc.

Module sink.
(** The fields as the getters [GetMessageId], [GetContent],
    [GetCurrentChunkNumber] and [GetTotalChunks] return them. *)
Record SinkMessage : Type := {
  GetMessageId : string;
  GetContent : slice;
  GetCurrentChunkNumber : Z;
  GetTotalChunks : Z
}.
End sink.

Module telemetry.
Record TelemetryMessage : Type := { Bytes : list byte }.
Record TelemetryMessageLog : Type := { Message : list TelemetryMessage }.
End telemetry.

Module kafka.
(** [kafka.Message]: only [Value] is read (the topic partition is logged). *)
Record Message : Type := { Value : list byte }.

(** What [Poll] returns: a message, an error, statistics, or nothing
    within the timeout. *)
Inductive Event : Type :=
  | EvMessage (m : Message)
  | EvError (e : string)
  | EvStats (s : string)
  | EvNone.
End kafka.

(** [KafkaConsumer]: [Subscribe] returns an error text or nothing.  [Poll],
    [CommitMessage] and [Close] belong to the transport; the dispatch loop
    below is run on the events that [Poll] delivered. *)
Record KafkaConsumer : Type := {
  Subscribe : string -> option string
}.

(** The interface field [consumer] can be the nil interface, an interface
    that holds a nil [*kafka.Consumer] (what [kafka.NewConsumer] returns next
    to an error), or a consumer. *)
Inductive consumerRef : Type :=
  | NilInterface
  | NilPointer
  | Consumer (c : KafkaConsumer).

(** [ipcMessage] *)
Record ipcMessage : Type := {
  chunk : Z;
  total : Z;
  id : string;
  content : slice
}.

(** [KafkaClient].  The two Prometheus counters are natural numbers. *)
Record KafkaClient : Type := {
  Bootstrap : string;
  Topic : string;
  GroupID : string;
  Parameters : list string;
  IPC : string;
  IsTelemetry : bool;
  consumer : consumerRef;
  msgBuffer : gmap string slice;
  chunkTracker : gmap string Z;
  stopping : bool;
  msgProcessed : nat;
  chunkProcessed : nat
}.

Definition set_IPC (v : string) (cli : KafkaClient) : KafkaClient :=
  {| Bootstrap := Bootstrap cli; Topic := Topic cli; GroupID := GroupID cli;
     Parameters := Parameters cli; IPC := v; IsTelemetry := IsTelemetry cli;
     consumer := consumer cli; msgBuffer := msgBuffer cli;
     chunkTracker := chunkTracker cli; stopping := stopping cli;
     msgProcessed := msgProcessed cli; chunkProcessed := chunkProcessed cli |}.

Definition set_consumer (v : consumerRef) (cli : KafkaClient) : KafkaClient :=
  {| Bootstrap := Bootstrap cli; Topic := Topic cli; GroupID := GroupID cli;
     Parameters := Parameters cli; IPC := IPC cli; IsTelemetry := IsTelemetry cli;
     consumer := v; msgBuffer := msgBuffer cli;
     chunkTracker := chunkTracker cli; stopping := stopping cli;
     msgProcessed := msgProcessed cli; chunkProcessed := chunkProcessed cli |}.

Definition set_msgBuffer (v : gmap string slice) (cli : KafkaClient) : KafkaClient :=
  {| Bootstrap := Bootstrap cli; Topic := Topic cli; GroupID := GroupID cli;
     Parameters := Parameters cli; IPC := IPC cli; IsTelemetry := IsTelemetry cli;
     consumer := consumer cli; msgBuffer := v;
     chunkTracker := chunkTracker cli; stopping := stopping cli;
     msgProcessed := msgProcessed cli; chunkProcessed := chunkProcessed cli |}.

Definition set_chunkTracker (v : gmap string Z) (cli : KafkaClient) : KafkaClient :=
  {| Bootstrap := Bootstrap cli; Topic := Topic cli; GroupID := GroupID cli;
     Parameters := Parameters cli; IPC := IPC cli; IsTelemetry := IsTelemetry cli;
     consumer := consumer cli; msgBuffer := msgBuffer cli;
     chunkTracker := v; stopping := stopping cli;
     msgProcessed := msgProcessed cli; chunkProcessed := chunkProcessed cli |}.

Definition set_stopping (v : bool) (cli : KafkaClient) : KafkaClient :=
  {| Bootstrap := Bootstrap cli; Topic := Topic cli; GroupID := GroupID cli;
     Parameters := Parameters cli; IPC := IPC cli; IsTelemetry := IsTelemetry cli;
     consumer := consumer cli; msgBuffer := msgBuffer cli;
     chunkTracker := chunkTracker cli; stopping := v;
     msgProcessed := msgProcessed cli; chunkProcessed := chunkProcessed cli |}.

(** [cli.msgProcessed.Inc()] *)
Definition inc_msgProcessed (cli : KafkaClient) : KafkaClient :=
  {| Bootstrap := Bootstrap cli; Topic := Topic cli; GroupID := GroupID cli;
     Parameters := Parameters cli; IPC := IPC cli; IsTelemetry := IsTelemetry cli;
     consumer := consumer cli; msgBuffer := msgBuffer cli;
     chunkTracker := chunkTracker cli; stopping := stopping cli;
     msgProcessed := S (msgProcessed cli); chunkProcessed := chunkProcessed cli |}.

(** [cli.chunkProcessed.Inc()] *)
Definition inc_chunkProcessed (cli : KafkaClient) : KafkaClient :=
  {| Bootstrap := Bootstrap cli; Topic := Topic cli; GroupID := GroupID cli;
     Parameters := Parameters cli; IPC := IPC cli; IsTelemetry := IsTelemetry cli;
     consumer := consumer cli; msgBuffer := msgBuffer cli;
     chunkTracker := chunkTracker cli; stopping := stopping cli;
     msgProcessed := msgProcessed cli; chunkProcessed := S (chunkProcessed cli) |}.

(** [cli.msgBuffer[id]] and [cli.chunkTracker[id]]: a missing key reads as
    the zero value. *)
Definition buffered (cli : KafkaClient) (k : string) : slice :=
  default None (msgBuffer cli !! k).

Definition tracked (cli : KafkaClient) (k : string) : Z :=
  default 0 (chunkTracker cli !! k).

(** The reassembly table of a client: both maps. *)
Definition table (cli : KafkaClient) : gmap string slice * gmap string Z :=
  (msgBuffer cli, chunkTracker cli).

(** [createVariables] *)
Definition createVariables (cli : KafkaClient) : KafkaClient :=
  set_chunkTracker ∅ (set_msgBuffer ∅ cli).

(** [registerCounters] *)
Definition registerCounters (cli : KafkaClient) : KafkaClient :=
  {| Bootstrap := Bootstrap cli; Topic := Topic cli; GroupID := GroupID cli;
     Parameters := Parameters cli; IPC := IPC cli; IsTelemetry := IsTelemetry cli;
     consumer := consumer cli; msgBuffer := msgBuffer cli;
     chunkTracker := chunkTracker cli; stopping := stopping cli;
     msgProcessed := 0%nat; chunkProcessed := 0%nat |}.

(** [bufferCleanup] *)
Definition bufferCleanup (cli : KafkaClient) (k : string) : KafkaClient :=
  set_chunkTracker (delete k (chunkTracker cli))
    (set_msgBuffer (delete k (msgBuffer cli)) cli).

(** How a call ends: it returns, the process exits through [log.Fatal], or
    it panics. *)
Inductive outcome (A : Type) : Type :=
  | Done (a : A)
  | Fatal (text : string)
  | Panic.
Arguments Done {A} a.
Arguments Fatal {A} text.
Arguments Panic {A}.

(** ** The client, over the libraries it calls *)
Section Client.

(** [proto.Unmarshal] into each of the generated messages: the decoded
    message, or the text of the error. *)
Variable unmarshalRpc : list byte -> string + rpc.RpcMessageProto.
Variable unmarshalSink : list byte -> string + sink.SinkMessage.
Variable unmarshalTelemetry : list byte -> string + telemetry.TelemetryMessageLog.

(** [netflow.FlowMessage], its decoder, and [json.MarshalIndent] on it
    (whose error the code drops). *)
Variable FlowMessage : Type.
Variable unmarshalFlow : list byte -> string + FlowMessage.
Variable marshalIndent : FlowMessage -> slice.

(** [getIpcMessage].  The rpc branch counts the chunk a second time. *)
Definition getIpcMessage (cli : KafkaClient) (msg : kafka.Message)
  : (error + ipcMessage) * KafkaClient :=
  if String.eqb (IPC cli) "rpc" then
    match unmarshalRpc (kafka.Value msg) with
    | inl err => (inl (ErrInvalidRpc err), cli)
    | inr rpcMsg =>
        let cli := inc_chunkProcessed cli in
        (inr {| chunk := add32 (rpc.CurrentChunkNumber rpcMsg) 1;
                total := rpc.TotalChunks rpcMsg;
                id := rpc.RpcId rpcMsg;
                content := rpc.RpcContent rpcMsg |}, cli)
    end
  else
    match unmarshalSink (kafka.Value msg) with
    | inl err => (inl (ErrInvalidSink err), cli)
    | inr sinkMsg =>
        (inr {| chunk := add32 (sink.GetCurrentChunkNumber sinkMsg) 1;
                total := sink.GetTotalChunks sinkMsg;
                id := sink.GetMessageId sinkMsg;
                content := sink.GetContent sinkMsg |}, cli)
    end.

(** [processMessage]: the returned slice is [nil] unless the message is
    complete. *)
Definition processMessage (cli : KafkaClient) (msg : kafka.Message)
  : slice * KafkaClient :=
  let cli := inc_chunkProcessed cli in
  match getIpcMessage cli msg with
  | (inl _, cli) => (None, cli)
  | (inr ipcmsg, cli) =>
      if negb (chunk ipcmsg =? total ipcmsg) then
        if tracked cli (id ipcmsg) <? chunk ipcmsg then
          (None,
           set_chunkTracker (<[id ipcmsg := chunk ipcmsg]> (chunkTracker cli))
             (set_msgBuffer
                (<[id ipcmsg := append (buffered cli (id ipcmsg)) (content ipcmsg)]>
                   (msgBuffer cli)) cli))
        else (None, cli)
      else
        let data :=
          if total ipcmsg =? 1 then content ipcmsg
          else append (buffered cli (id ipcmsg)) (content ipcmsg) in
        (data, bufferCleanup cli (id ipcmsg))
  end.

(** *** The handler

    [ProcessSinkMessage] is a callback [func(msg []byte)].  Its effect is
    a transition [action] on a state [H] of the handler's own. *)
Section Handler.
Context {H : Type}.
Variable action : slice -> H -> H.

(** The loop of [processTelemetry] over [msgLog.Message]. *)
Fixpoint emitFlows (msgs : list telemetry.TelemetryMessage) (h : H)
  : option error * H :=
  match msgs with
  | [] => (None, h)
  | msg :: rest =>
      match unmarshalFlow (telemetry.Bytes msg) with
      | inl err => (Some (ErrInvalidNetflow err), h)
      | inr flow => emitFlows rest (action (marshalIndent flow) h)
      end
  end.

(** [processTelemetry] *)
Definition processTelemetry (data : slice) (h : H) : option error * H :=
  match unmarshalTelemetry (elems data) with
  | inl err => (Some (ErrInvalidTelemetry err), h)
  | inr msgLog => emitFlows (telemetry.Message msgLog) h
  end.

(** One iteration of the loop of [Start], on the event that [Poll]
    returned.  An error of [processTelemetry] and the result of
    [CommitMessage] are logged; [showStats] logs. *)
Definition dispatch (cli : KafkaClient) (event : kafka.Event) (h : H)
  : KafkaClient * H :=
  match event with
  | kafka.EvMessage e =>
      let '(data, cli) := processMessage cli e in
      if not_nil data then
        let cli := inc_msgProcessed cli in
        if IsTelemetry cli then (cli, (processTelemetry data h).2)
        else (cli, action data h)
      else (cli, h)
  | kafka.EvError _ => (cli, h)
  | kafka.EvStats _ => (cli, h)
  | kafka.EvNone => (cli, h)
  end.

(** The [for] loop of [Start], run on the events polled so far. *)
Fixpoint loop (cli : KafkaClient) (events : list kafka.Event) (h : H)
  : KafkaClient * H :=
  match events with
  | [] => (cli, h)
  | event :: rest =>
      if stopping cli then (cli, h)
      else let '(cli, h) := dispatch cli event h in loop cli rest h
  end.

(** [Start]: [log.Fatal] without a consumer; polling a nil
    [*kafka.Consumer] panics. *)
Definition Start (cli : KafkaClient) (events : list kafka.Event) (h : H)
  : outcome (KafkaClient * H) :=
  match consumer cli with
  | NilInterface => Fatal "Consumer not initialized"
  | NilPointer => Panic
  | Consumer _ => Done (loop (set_stopping false cli) events h)
  end.
End Handler.

(** [Stop] (closing the consumer is the transport's business). *)
Definition Stop (cli : KafkaClient) : KafkaClient := set_stopping true cli.

(** [kafka.NewConsumer(cli.createConfig())]: the configuration is built
    from [Bootstrap], [GroupID] and [Parameters]. *)
Variable NewConsumer : string -> string -> list string -> string + KafkaConsumer.

(** The check of the mode in [Initialize]. *)
Definition checkIPC (cli : KafkaClient) : error + KafkaClient :=
  if String.eqb (IPC cli) "" then inr (set_IPC "sink" cli)
  else if negb (String.eqb (IPC cli) "sink") && negb (String.eqb (IPC cli) "rpc")
       then inl (ErrInvalidIPC (IPC cli))
       else inr cli.

(** [Initialize]: the error, or [None] for [nil]. *)
Definition Initialize (cli : KafkaClient) : option error * KafkaClient :=
  match consumer cli with
  | NilInterface =>
      match checkIPC cli with
      | inl err => (Some err, cli)
      | inr cli =>
          match NewConsumer (Bootstrap cli) (GroupID cli) (Parameters cli) with
          | inl err =>
              (Some (ErrCannotCreateConsumer err), set_consumer NilPointer cli)
          | inr c =>
              let cli := set_consumer (Consumer c) cli in
              match Subscribe c (Topic cli) with
              | Some err => (Some (ErrCannotSubscribe (Topic cli) err), cli)
              | None => (None, registerCounters (createVariables cli))
              end
          end
      end
  | _ => (Some ErrAlreadyInitialized, cli)
  end.

(** The ways in which [Initialize] fails. *)
Definition alreadyInitialized (cli : KafkaClient) : Prop :=
  consumer cli <> NilInterface.

Definition invalidMode (cli : KafkaClient) : Prop :=
  IPC cli <> ""%string /\ IPC cli <> "sink"%string /\ IPC cli <> "rpc"%string.

Definition creationFails (cli : KafkaClient) : Prop :=
  exists err, NewConsumer (Bootstrap cli) (GroupID cli) (Parameters cli) = inl err.

Definition subscriptionFails (cli : KafkaClient) : Prop :=
  exists c err,
    NewConsumer (Bootstrap cli) (GroupID cli) (Parameters cli) = inr c /\
    Subscribe c (Topic cli) = Some err.

(** [main], after the flags are parsed into [cli]: [log.Fatalf] when
    [Initialize] fails, otherwise the loop is started. *)
Definition main {H : Type} (action : slice -> H -> H) (cli : KafkaClient)
    (events : list kafka.Event) (h : H) : outcome (KafkaClient * H) :=
  match Initialize cli with
  | (Some _, _) => Fatal "Cannot initialize consumer"
  | (None, cli) => Start action cli events h
  end.

End Client.

(** ** Runs and observations used by the statements *)

(** A handler that records the payloads it is called with. *)
Definition record (data : slice) (calls : list slice) : list slice :=
  calls ++ [data].

Section Observations.

Variable unmarshalRpc : list byte -> string + rpc.RpcMessageProto.
Variable unmarshalSink : list byte -> string + sink.SinkMessage.

(** The fragment that [getIpcMessage] decodes from a message, if any. *)
Definition decoded (cli : KafkaClient) (msg : kafka.Message) : option ipcMessage :=
  match (getIpcMessage unmarshalRpc unmarshalSink cli msg).1 with
  | inl _ => None
  | inr ipcmsg => Some ipcmsg
  end.

(** [processMessage] on each message of a list, in order: what each call
    returned, and the client at the end. *)
Fixpoint processAll (cli : KafkaClient) (msgs : list kafka.Message)
  : list slice * KafkaClient :=
  match msgs with
  | [] => ([], cli)
  | msg :: rest =>
      let '(data, cli) := processMessage unmarshalRpc unmarshalSink cli msg in
      let '(out, cli) := processAll cli rest in
      (data :: out, cli)
  end.

(** The number of releases: calls that returned a non-nil slice. *)
Definition releases (out : list slice) : nat :=
  length (List.filter not_nil out).

(** Whether a message decodes to a final fragment ([chunk == total]). *)
Definition isFinal (cli : KafkaClient) (msg : kafka.Message) : bool :=
  match decoded cli msg with
  | Some ipcmsg => chunk ipcmsg =? total ipcmsg
  | None => false
  end.

(** The number of messages of a list that decode to a final fragment. *)
Definition finals (cli : KafkaClient) (msgs : list kafka.Message) : nat :=
  length (List.filter (isFinal cli) msgs).

(** The fragments [i], [i + 1], ... of the message [k] of [n] chunks, with
    the contents [cs] in order. *)
Fixpoint fragmentsFrom (k : string) (n i : Z) (cs : list slice) : list ipcMessage :=
  match cs with
  | [] => []
  | c :: rest =>
      {| chunk := i; total := n; id := k; content := c |}
        :: fragmentsFrom k n (i + 1) rest
  end.

(** A message [k] cut into the contents [cs]: chunk 1 of n up to chunk n of
    n, where n is the number of contents. *)
Definition fragments (k : string) (cs : list slice) : list ipcMessage :=
  fragmentsFrom k (Z.of_nat (length cs)) 1 cs.

(** The messages [msgs] decode, one by one, to the fragments [ms]. *)
Definition carries (cli : KafkaClient) (msgs : list kafka.Message)
    (ms : list ipcMessage) : Prop :=
  Forall2 (fun msg m => decoded cli msg = Some m) msgs ms.

(** The operations on the table. *)
Inductive op : Type :=
  | OpProcess (msg : kafka.Message)
  | OpCleanup (k : string).

Definition step (cli : KafkaClient) (o : op) : KafkaClient :=
  match o with
  | OpProcess msg => (processMessage unmarshalRpc unmarshalSink cli msg).2
  | OpCleanup k => bufferCleanup cli k
  end.

End Observations.

(** ** Sample instances of the libraries

    The statements below hold for every decoder and every broker library.
    To run the client on concrete messages, this module fixes one of each:
    a small framing in place of the protobuf encodings, and a broker that
    rejects one configuration. *)
Module Sample.

Definition num (b : byte) : Z := Z.of_N (Byte.to_N b).

Definition octet (z : Z) : byte := default x00 (Byte.of_N (Z.to_N z)).

(** The frame of a fragment: the 0-based chunk number, the total, the
    length of the identity, the identity, and then the content.  A frame
    without content bytes decodes to a [nil] content, like a protobuf
    message without the field. *)
Definition fields (raw : list byte) : option (Z * Z * string * slice) :=
  match raw with
  | c :: t :: n :: rest =>
      let n := N.to_nat (Byte.to_N n) in
      if (length rest <? n)%nat then None
      else Some (num c, num t, string_of_list_byte (take n rest),
                 match drop n rest with [] => None | l => Some l end)
  | _ => None
  end.

Definition unmarshalSink (raw : list byte) : string + sink.SinkMessage :=
  match fields raw with
  | Some (c, t, k, b) =>
      inr {| sink.GetMessageId := k; sink.GetContent := b;
             sink.GetCurrentChunkNumber := c; sink.GetTotalChunks := t |}
  | None => inl "unexpected EOF"%string
  end.

Definition unmarshalRpc (raw : list byte) : string + rpc.RpcMessageProto :=
  match fields raw with
  | Some (c, t, k, b) =>
      inr {| rpc.RpcId := k; rpc.RpcContent := b;
             rpc.CurrentChunkNumber := c; rpc.TotalChunks := t |}
  | None => inl "unexpected EOF"%string
  end.

(** The message that carries chunk number [c] (0-based) of [t] of the
    message [k]. *)
Definition frame (k : string) (c t : Z) (body : string) : kafka.Message :=
  {| kafka.Value :=
       octet c :: octet t :: octet (Z.of_nat (String.length k))
         :: list_byte_of_string k ++ list_byte_of_string body |}.

(** A telemetry envelope starts with the byte [0a]; each byte after it is
    one inner record.  A record decodes to a flow unless it is [ff]. *)
Definition unmarshalTelemetry (raw : list byte)
  : string + telemetry.TelemetryMessageLog :=
  match raw with
  | x0a :: records =>
      inr {| telemetry.Message :=
               map (fun r => {| telemetry.Bytes := [r] |}) records |}
  | _ => inl "proto: cannot parse invalid wire-format data"%string
  end.

Definition unmarshalFlow (raw : list byte) : string + byte :=
  match raw with
  | [xff] => inl "proto: cannot parse invalid wire-format data"%string
  | [r] => inr r
  | _ => inl "unexpected EOF"%string
  end.

Definition marshalIndent (flow : byte) : slice := Some [flow].

(** A broker library that knows no property [foo] and accepts every
    topic but the empty one. *)
Definition NewConsumer (bootstrap group : string) (parameters : list string)
  : string + KafkaConsumer :=
  if bool_decide ("foo=bar"%string ∈ parameters)
  then inl "No such configuration property: foo"%string
  else inr {| Subscribe := fun topic =>
                if String.eqb topic "" then Some "Invalid topic"%string
                else None |}.

(** The client as [main] builds it from the default flags, and the same
    client after [Initialize]. *)
Definition flags : KafkaClient :=
  {| Bootstrap := "localhost:9092"; Topic := "OpenNMS.Sink.Trap";
     GroupID := "sink-go-client"; Parameters := []; IPC := "sink";
     IsTelemetry := false; consumer := NilInterface;
     msgBuffer := ∅; chunkTracker := ∅; stopping := false;
     msgProcessed := 0; chunkProcessed := 0 |}.

Definition ready : KafkaClient := (Initialize NewConsumer flags).2.

(** The same flags with [-parameter foo=bar]. *)
Definition flagsFoo : KafkaClient :=
  {| Bootstrap := "localhost:9092"; Topic := "OpenNMS.Sink.Trap";
     GroupID := "sink-go-client"; Parameters := ["foo=bar"%string]; IPC := "sink";
     IsTelemetry := false; consumer := NilInterface;
     msgBuffer := ∅; chunkTracker := ∅; stopping := false;
     msgProcessed := 0; chunkProcessed := 0 |}.

(** The initialised client in telemetry mode, and in rpc mode. *)
Definition readyTelemetry : KafkaClient :=
  {| Bootstrap := Bootstrap ready; Topic := Topic ready; GroupID := GroupID ready;
     Parameters := Parameters ready; IPC := IPC ready; IsTelemetry := true;
     consumer := consumer ready; msgBuffer := msgBuffer ready;
     chunkTracker := chunkTracker ready; stopping := stopping ready;
     msgProcessed := msgProcessed ready; chunkProcessed := chunkProcessed ready |}.

Definition readyRpc : KafkaClient := set_IPC "rpc" ready.

Definition process := processMessage unmarshalRpc unmarshalSink.
Definition processList := processAll unmarshalRpc unmarshalSink.
Definition unwrap := processTelemetry unmarshalTelemetry byte unmarshalFlow marshalIndent record.
Definition handle := dispatch unmarshalRpc unmarshalSink unmarshalTelemetry byte unmarshalFlow marshalIndent record.

End Sample.


(** ** The configuration and the flags *)

(** [strings.Split(s, sep)] for a separator of one byte: the pieces of [s]
    between the occurrences of [c], one more than there are occurrences. *)
Fixpoint splitOn (c : ascii) (s : string) : list string :=
  match s with
  | EmptyString => [EmptyString]
  | String a rest =>
      if Ascii.eqb a c then EmptyString :: splitOn c rest
      else match splitOn c rest with
           | [] => [String a EmptyString]
           | piece :: pieces => String a piece :: pieces
           end
  end.

(** [strings.Join(elems, sep)] *)
Fixpoint join (sep : string) (elems : list string) : string :=
  match elems with
  | [] => EmptyString
  | [a] => a
  | a :: rest => (a ++ sep ++ join sep rest)%string
  end.

(** [Propertites.String] *)
Definition Propertites_String (p : list string) : string := join ", " p.

(** [Propertites.Set]: the new value of the receiver, and the error, which
    is always [nil]. *)
Definition Propertites_Set (p : list string) (value : string)
  : list string * option error :=
  (p ++ [value], None).

(** A [kafka.ConfigValue] of the configuration: a string or an integer. *)
Inductive ConfigValue : Type :=
  | ConfigString (s : string)
  | ConfigInt (n : Z).

(** The number of occurrences of a byte in a string. *)
Fixpoint occurrences (c : ascii) (s : string) : nat :=
  match s with
  | EmptyString => 0
  | String a rest => ((if Ascii.eqb a c then 1 else 0) + occurrences c rest)%nat
  end.

(** The part of a string before the first occurrence of a byte, and the
    part after it. *)
Fixpoint before (c : ascii) (s : string) : string :=
  match s with
  | EmptyString => EmptyString
  | String a rest => if Ascii.eqb a c then EmptyString else String a (before c rest)
  end.

Fixpoint after (c : ascii) (s : string) : string :=
  match s with
  | EmptyString => EmptyString
  | String a rest => if Ascii.eqb a c then rest else after c rest
  end.

Section Config.

(** [ConfigMap.SetKey] of the Kafka library: the error text, if any, and
    the map after the call. *)
Variable SetKey :
  gmap string ConfigValue -> string -> ConfigValue ->
  option string * gmap string ConfigValue.

(** The body of the loop of [createConfig] for one parameter. *)
Definition addParameter (config : gmap string ConfigValue) (kv : string)
  : gmap string ConfigValue :=
  match splitOn "="%char kv with
  | [key; value] => (SetKey config key (ConfigString value)).2
  | _ => config
  end.

(** [createConfig] *)
Definition createConfig (cli : KafkaClient) : gmap string ConfigValue :=
  let config : gmap string ConfigValue :=
    {[ "bootstrap.servers"%string := ConfigString (Bootstrap cli);
       "group.id"%string := ConfigString (GroupID cli);
       "session.timeout.ms"%string := ConfigInt 6000;
       "broker.address.family"%string := ConfigString "v4" ]} in
  fold_left addParameter (Parameters cli) config.

End Config.

(** ** More observations of runs *)
Section RunObservations.

Variable unmarshalRpc : list byte -> string + rpc.RpcMessageProto.
Variable unmarshalSink : list byte -> string + sink.SinkMessage.


(** Whether a message decodes to a fragment of the message [k]. *)
Definition hasId (cli : KafkaClient) (k : string) (msg : kafka.Message) : bool :=
  match decoded unmarshalRpc unmarshalSink cli msg with
  | Some m => String.eqb (id m) k
  | None => false
  end.

(** Whether a message decodes to a final fragment of the message [k]. *)
Definition isFinalFor (cli : KafkaClient) (k : string) (msg : kafka.Message) : bool :=
  hasId cli k msg && isFinal unmarshalRpc unmarshalSink cli msg.

(** Whether a message decodes at all. *)
Definition decodable (cli : KafkaClient) (msg : kafka.Message) : bool :=
  bool_decide (is_Some (decoded unmarshalRpc unmarshalSink cli msg)).

(** What the calls of a run returned for the messages that carry fragments
    of [k], in order. *)
Definition outputsFor (cli : KafkaClient) (k : string) (msgs : list kafka.Message)
  : list slice :=
  map snd
    (List.filter (fun p => hasId cli k (fst p))
       (combine msgs (processAll unmarshalRpc unmarshalSink cli msgs).1)).

(** The fragments that pass the test [chunkTracker[id] < chunk] when they
    arrive in this order at the watermark [w]: each one whose chunk index is
    above all the ones before it. *)
Fixpoint accepted (w : Z) (ms : list ipcMessage) : list ipcMessage :=
  match ms with
  | [] => []
  | m :: rest =>
      if w <? chunk m then m :: accepted (chunk m) rest else accepted w rest
  end.

(** The watermark after these fragments. *)
Fixpoint watermark (w : Z) (ms : list ipcMessage) : Z :=
  match ms with
  | [] => w
  | m :: rest => watermark (if w <? chunk m then chunk m else w) rest
  end.

(** [append] of each content in turn. *)
Definition appendAll (s : slice) (cs : list slice) : slice :=
  fold_left append cs s.

End RunObservations.

(** ** More sample values *)
Module Sample2.


(** The client after chunk 1/3 [AB] of [m1]. *)
Definition inFlight : KafkaClient :=
  (Sample.process Sample.ready (Sample.frame "m1" 0 3 "AB")).2.

(** A [SetKey] that stores the value under the key. *)
Definition SetKey (config : gmap string ConfigValue) (key : string)
    (value : ConfigValue) : option string * gmap string ConfigValue :=
  (None, <[key := value]> config).

End Sample2.

(** * Properties *)

(** ** Go values *)

Lemma add32_exact (c : Z) : is_int32 c -> c < int32_max -> add32 c 1 = c + 1.
Proof.
  unfold is_int32, int32_min, int32_max, add32, wrap32. intros [Hlo Hhi] Hlt.
  rewrite Z.mod_small; lia.
Qed.

Lemma add32_is_int32 (a b : Z) : is_int32 (add32 a b).
Proof.
  unfold is_int32, int32_min, int32_max, add32, wrap32.
  pose proof (Z.mod_pos_bound (a + b + 2 ^ 31) (2 ^ 32)) as Hb. lia.
Qed.

(** At the largest [int32] the addition wraps to the smallest one. *)
Example add32_wraps : add32 int32_max 1 = int32_min.
Proof. reflexivity. Qed.

Lemma append_nil_r (s : slice) : append s None = s.
Proof. reflexivity. Qed.

Lemma elems_append (s t : slice) : elems (append s t) = elems s ++ elems t.
Proof.
  unfold append. destruct (elems t) as [|b e] eqn:Ht; simpl.
  - by rewrite app_nil_r.
  - reflexivity.
Qed.

Lemma append_not_nil (s t : slice) : elems t <> [] -> is_Some (append s t).
Proof.
  unfold append. destruct (elems t) as [|b e]; [done | eauto].
Qed.

Lemma not_nil_is_Some (s : slice) : not_nil s = true <-> is_Some s.
Proof. unfold not_nil. apply bool_decide_eq_true. Qed.

Lemma not_nil_None (s : slice) : not_nil s = false <-> s = None.
Proof.
  unfold not_nil. rewrite bool_decide_eq_false, <- eq_None_not_Some. done.
Qed.

(** ** The reassembly table *)
Section Reassembly.

Variable unmarshalRpc : list byte -> string + rpc.RpcMessageProto.
Variable unmarshalSink : list byte -> string + sink.SinkMessage.

Local Abbreviation getIpc := (getIpcMessage unmarshalRpc unmarshalSink).
Local Abbreviation process := (processMessage unmarshalRpc unmarshalSink).
Local Abbreviation decode := (decoded unmarshalRpc unmarshalSink).
Local Abbreviation run := (processAll unmarshalRpc unmarshalSink).

(** Decoding reads the mode of the client and nothing else of it. *)
Lemma decoded_ext (cli cli' : KafkaClient) (msg : kafka.Message) :
  IPC cli = IPC cli' -> decode cli msg = decode cli' msg.
Proof.
  unfold decoded, getIpcMessage. intros ->.
  destruct (String.eqb (IPC cli') "rpc");
    [destruct (unmarshalRpc _) | destruct (unmarshalSink _)]; reflexivity.
Qed.

(** What a call of [processMessage] returns and what it does to the table,
    by the fragment that the message decodes to. *)
Lemma processMessage_cases (cli : KafkaClient) (msg : kafka.Message) :
  ((process cli msg).1, table (process cli msg).2) =
  match decode cli msg with
  | None => (None, table cli)
  | Some m =>
      if chunk m =? total m then
        (if total m =? 1 then content m
         else append (buffered cli (id m)) (content m),
         (delete (id m) (msgBuffer cli), delete (id m) (chunkTracker cli)))
      else if tracked cli (id m) <? chunk m then
        (None,
         (<[id m := append (buffered cli (id m)) (content m)]> (msgBuffer cli),
          <[id m := chunk m]> (chunkTracker cli)))
      else (None, table cli)
  end.
Proof.
  unfold processMessage, decoded, getIpcMessage. cbn [IPC inc_chunkProcessed].
  destruct (String.eqb (IPC cli) "rpc");
    [destruct (unmarshalRpc _) as [err|pb] | destruct (unmarshalSink _) as [err|pb]];
    cbn [fst snd]; try reflexivity.
  all: unfold tracked, buffered, table;
    cbn [chunk total id content msgBuffer chunkTracker inc_chunkProcessed].
  all: match goal with |- context [?a =? ?b] => destruct (a =? b) end;
    cbn [negb fst snd]; try reflexivity.
  all: match goal with |- context [?a <? ?b] => destruct (a <? b) end;
    reflexivity.
Qed.

Lemma processMessage_IPC (cli : KafkaClient) (msg : kafka.Message) :
  IPC (process cli msg).2 = IPC cli.
Proof.
  unfold processMessage, getIpcMessage. cbn [IPC inc_chunkProcessed].
  destruct (String.eqb (IPC cli) "rpc");
    [destruct (unmarshalRpc _) as [err|pb] | destruct (unmarshalSink _) as [err|pb]];
    cbn [fst snd]; try reflexivity.
  all: repeat match goal with |- context [if ?c then _ else _] => destruct c end;
    reflexivity.
Qed.

(** The two components of [processMessage_cases]. *)
Lemma processMessage_data (cli : KafkaClient) (msg : kafka.Message) :
  (process cli msg).1 =
  match decode cli msg with
  | None => None
  | Some m =>
      if chunk m =? total m then
        if total m =? 1 then content m
        else append (buffered cli (id m)) (content m)
      else None
  end.
Proof.
  pose proof (processMessage_cases cli msg) as H.
  apply (f_equal fst) in H. cbn [fst] in H. rewrite H.
  destruct (decode cli msg) as [m|]; [|reflexivity].
  destruct (chunk m =? total m); [reflexivity|].
  destruct (tracked cli (id m) <? chunk m); reflexivity.
Qed.

Lemma processMessage_table (cli : KafkaClient) (msg : kafka.Message) :
  table (process cli msg).2 =
  match decode cli msg with
  | None => table cli
  | Some m =>
      if chunk m =? total m then
        (delete (id m) (msgBuffer cli), delete (id m) (chunkTracker cli))
      else if tracked cli (id m) <? chunk m then
        (<[id m := append (buffered cli (id m)) (content m)]> (msgBuffer cli),
         <[id m := chunk m]> (chunkTracker cli))
      else table cli
  end.
Proof.
  pose proof (processMessage_cases cli msg) as H.
  apply (f_equal snd) in H. cbn [snd] in H. rewrite H.
  destruct (decode cli msg) as [m|]; [|reflexivity].
  destruct (chunk m =? total m); [reflexivity|].
  destruct (tracked cli (id m) <? chunk m); reflexivity.
Qed.

(** What [processMessage] returns, and the table it leaves, depend on the
    client through its table and its mode only (not on the counters). *)
Lemma processMessage_ext (cli cli' : KafkaClient) (msg : kafka.Message) :
  table cli = table cli' -> IPC cli = IPC cli' ->
  (process cli msg).1 = (process cli' msg).1 /\
  table (process cli msg).2 = table (process cli' msg).2.
Proof.
  intros Ht Hi.
  rewrite !processMessage_data, !processMessage_table.
  rewrite (decoded_ext cli cli' msg Hi).
  unfold buffered, tracked.
  change (msgBuffer cli) with (table cli).1.
  change (chunkTracker cli) with (table cli).2.
  rewrite Ht. done.
Qed.

Lemma processAll_cons (cli : KafkaClient) (msg : kafka.Message)
    (rest : list kafka.Message) :
  run cli (msg :: rest) =
  ((process cli msg).1 :: (run (process cli msg).2 rest).1,
   (run (process cli msg).2 rest).2).
Proof.
  cbn [processAll]. destruct (process cli msg) as [data cli1]. cbn [fst snd].
  destruct (run cli1 rest) as [out cli2]. reflexivity.
Qed.

Lemma processAll_ext (msgs : list kafka.Message) (cli cli' : KafkaClient) :
  table cli = table cli' -> IPC cli = IPC cli' ->
  (run cli msgs).1 = (run cli' msgs).1 /\
  table (run cli msgs).2 = table (run cli' msgs).2.
Proof.
  revert cli cli'. induction msgs as [|msg rest IH]; intros cli cli' Ht Hi.
  - done.
  - rewrite !processAll_cons. cbn [fst snd].
    destruct (processMessage_ext cli cli' msg Ht Hi) as [Hd Ht'].
    destruct (IH (process cli msg).2 (process cli' msg).2 Ht') as [Ho Hf].
    + by rewrite !processMessage_IPC.
    + by rewrite Hd, Ho.
Qed.

(** A non-final fragment at or below the watermark of its message changes
    nothing. *)
Lemma processMessage_stale (cli : KafkaClient) (msg : kafka.Message) (m : ipcMessage) :
  decode cli msg = Some m -> chunk m <> total m -> chunk m <= tracked cli (id m) ->
  (process cli msg).1 = None /\ table (process cli msg).2 = table cli.
Proof.
  intros Hd Hne Hle.
  rewrite processMessage_data, processMessage_table, Hd.
  destruct (Z.eqb_spec (chunk m) (total m)) as [|_]; [done|].
  destruct (Z.ltb_spec (tracked cli (id m)) (chunk m)); [lia|done].
Qed.

(** A non-final fragment above the watermark is appended and becomes the
    watermark. *)
Lemma processMessage_accept (cli : KafkaClient) (msg : kafka.Message) (m : ipcMessage) :
  decode cli msg = Some m -> chunk m <> total m -> tracked cli (id m) < chunk m ->
  (process cli msg).1 = None /\
  buffered (process cli msg).2 (id m) = append (buffered cli (id m)) (content m) /\
  tracked (process cli msg).2 (id m) = chunk m /\
  delete (id m) (msgBuffer (process cli msg).2) = delete (id m) (msgBuffer cli) /\
  delete (id m) (chunkTracker (process cli msg).2) = delete (id m) (chunkTracker cli).
Proof.
  intros Hd Hne Hlt.
  pose proof (processMessage_table cli msg) as Ht.
  rewrite processMessage_data, Hd. rewrite Hd in Ht.
  destruct (Z.eqb_spec (chunk m) (total m)) as [|_]; [done|].
  destruct (Z.ltb_spec (tracked cli (id m)) (chunk m)); [|lia].
  unfold table in Ht. injection Ht as Hb Hc.
  unfold buffered at 1, tracked at 1. rewrite Hb, Hc.
  rewrite !lookup_insert_eq, !delete_insert_eq. done.
Qed.

(** A final fragment returns the buffer with its content appended (its own
    content when the message has one chunk) and removes the entry. *)
Lemma processMessage_final (cli : KafkaClient) (msg : kafka.Message) (m : ipcMessage) :
  decode cli msg = Some m -> chunk m = total m ->
  (process cli msg).1 =
    (if total m =? 1 then content m else append (buffered cli (id m)) (content m)) /\
  msgBuffer (process cli msg).2 = delete (id m) (msgBuffer cli) /\
  chunkTracker (process cli msg).2 = delete (id m) (chunkTracker cli).
Proof.
  intros Hd He.
  pose proof (processMessage_table cli msg) as Ht.
  rewrite processMessage_data, Hd. rewrite Hd in Ht.
  destruct (Z.eqb_spec (chunk m) (total m)) as [_|]; [|done].
  unfold table in Ht. injection Ht as Hb Hc. done.
Qed.

Lemma tracked_ext (cli cli' : KafkaClient) (k : string) :
  table cli = table cli' -> tracked cli k = tracked cli' k.
Proof.
  intros Ht. unfold tracked.
  change (chunkTracker cli) with (table cli).2. by rewrite Ht.
Qed.

Lemma buffered_ext (cli cli' : KafkaClient) (k : string) :
  table cli = table cli' -> buffered cli k = buffered cli' k.
Proof.
  intros Ht. unfold buffered.
  change (msgBuffer cli) with (table cli).1. by rewrite Ht.
Qed.

(** C4.  For a fragment with [chunk < total] and every state of the table,
    applying the same fragment twice in sequence leaves the table that
    applying it once leaves: both calls return nil, the tables are equal,
    and every later sequence of messages returns the same payloads after
    the second application as after the first. *)
Theorem processMessage_idempotent (cli : KafkaClient) (msg : kafka.Message)
    (m : ipcMessage) :
  decode cli msg = Some m -> chunk m < total m ->
  let once := (process cli msg).2 in
  let twice := (process once msg).2 in
  (process cli msg).1 = None /\ (process once msg).1 = None /\
  table twice = table once /\
  forall msgs, (run twice msgs).1 = (run once msgs).1.
Proof.
  intros Hd Hlt once twice.
  assert (Hne : chunk m <> total m) by lia.
  assert (Hd1 : decode once msg = Some m).
  { rewrite <- Hd. apply decoded_ext, processMessage_IPC. }
  assert (H1 : (process cli msg).1 = None /\ chunk m <= tracked once (id m)).
  { destruct (Z.lt_ge_cases (tracked cli (id m)) (chunk m)) as [Hacc|Hst].
    - destruct (processMessage_accept cli msg m Hd Hne Hacc) as (Hr & _ & Hw & _).
      split; [done|]. subst once. lia.
    - destruct (processMessage_stale cli msg m Hd Hne Hst) as [Hr Ht].
      split; [done|]. subst once. rewrite (tracked_ext _ cli (id m) Ht). lia. }
  destruct H1 as [Hr1 Hw].
  destruct (processMessage_stale once msg m Hd1 Hne Hw) as [Hr2 Ht2].
  repeat split; try done.
  intros msgs. apply processAll_ext; [done|].
  subst twice. by rewrite processMessage_IPC.
Qed.

(** C6.  When the watermark of a message is at least [k], a redelivered
    non-final fragment with chunk index [k] is discarded: the call returns
    nil, the buffered bytes and the watermark of the message are unchanged
    (the whole table is), and every later sequence of messages, the
    completion included, returns what it returns without the redelivery. *)
Theorem stale_fragment_discarded (cli : KafkaClient) (msg : kafka.Message)
    (m : ipcMessage) :
  decode cli msg = Some m -> chunk m <> total m -> chunk m <= tracked cli (id m) ->
  let after := (process cli msg).2 in
  (process cli msg).1 = None /\
  buffered after (id m) = buffered cli (id m) /\
  tracked after (id m) = tracked cli (id m) /\
  table after = table cli /\
  forall msgs, (run after msgs).1 = (run cli msgs).1.
Proof.
  intros Hd Hne Hle after.
  destruct (processMessage_stale cli msg m Hd Hne Hle) as [Hr Ht].
  split; [done|].
  split; [by apply buffered_ext|].
  split; [by apply tracked_ext|].
  split; [done|].
  intros msgs. apply processAll_ext; [done|].
  subst after. by rewrite processMessage_IPC.
Qed.

(** C7, as the code has it.  A fragment with [chunk = total = 1] returns its
    own content, and [bufferCleanup] runs for it as for every final
    fragment: the entry of its message identity is deleted from both maps,
    no entry is created, and the table is the one before the call whenever
    the identity had no entry. *)
Theorem single_fragment_release (cli : KafkaClient) (msg : kafka.Message)
    (m : ipcMessage) :
  decode cli msg = Some m -> chunk m = 1 -> total m = 1 ->
  let after := (process cli msg).2 in
  (process cli msg).1 = content m /\
  msgBuffer after = delete (id m) (msgBuffer cli) /\
  chunkTracker after = delete (id m) (chunkTracker cli) /\
  (msgBuffer cli !! id m = None -> chunkTracker cli !! id m = None ->
   table after = table cli).
Proof.
  intros Hd Hc Ht after.
  assert (He : chunk m = total m) by lia.
  destruct (processMessage_final cli msg m Hd He) as (Hr & Hb & Hk).
  rewrite Ht in Hr. cbn in Hr.
  repeat split; try done.
  intros Hnb Hnk. unfold table. subst after.
  by rewrite Hb, Hk, !delete_id.
Qed.

(** Each operation keeps the key sets of the two maps equal. *)
Lemma step_keys (cli : KafkaClient) (o : op) :
  dom (msgBuffer cli) =@{gset string} dom (chunkTracker cli) ->
  dom (msgBuffer (step unmarshalRpc unmarshalSink cli o))
    =@{gset string} dom (chunkTracker (step unmarshalRpc unmarshalSink cli o)).
Proof.
  intros Hdom. destruct o as [msg|k]; cbn [step].
  - pose proof (processMessage_table cli msg) as Ht. unfold table in Ht.
    destruct (decode cli msg) as [m|].
    + destruct (chunk m =? total m).
      * injection Ht as -> ->. by rewrite !dom_delete_L, Hdom.
      * destruct (tracked cli (id m) <? chunk m).
        -- injection Ht as -> ->. by rewrite !dom_insert_L, Hdom.
        -- by injection Ht as -> ->.
    + by injection Ht as -> ->.
  - cbn. by rewrite !dom_delete_L, Hdom.
Qed.

(** C10.  In every state reached from the empty table of [createVariables]
    by a sequence of [processMessage] and [bufferCleanup] operations, the
    two maps have the same keys: a message identity has buffered bytes if
    and only if it has a watermark. *)
Theorem table_keys_agree (cli : KafkaClient) (ops : list op) :
  let reached :=
    fold_left (step unmarshalRpc unmarshalSink) ops (createVariables cli) in
  dom (msgBuffer reached) =@{gset string} dom (chunkTracker reached) /\
  forall k : string,
    is_Some (msgBuffer reached !! k) <-> is_Some (chunkTracker reached !! k).
Proof.
  intros reached.
  assert (Hdom : dom (msgBuffer reached) =@{gset string} dom (chunkTracker reached)).
  { subst reached.
    assert (H0 : dom (msgBuffer (createVariables cli))
                 =@{gset string} dom (chunkTracker (createVariables cli))).
    { cbn. by rewrite !dom_empty_L. }
    revert H0. generalize (createVariables cli) as st.
    induction ops as [|o rest IH]; intros st Hst; [done|].
    cbn [fold_left]. apply IH, step_keys, Hst. }
  split; [done|].
  intros k. by rewrite <- !elem_of_dom, Hdom.
Qed.

(** *** Releases along a run *)

Lemma isFinal_ext (cli cli' : KafkaClient) (msg : kafka.Message) :
  IPC cli = IPC cli' ->
  isFinal unmarshalRpc unmarshalSink cli msg = isFinal unmarshalRpc unmarshalSink cli' msg.
Proof. intros Hi. unfold isFinal. by rewrite (decoded_ext cli cli' msg Hi). Qed.

(** A call that returns a non-nil slice was given a final fragment. *)
Lemma release_is_final (cli : KafkaClient) (msg : kafka.Message) :
  is_Some (process cli msg).1 -> isFinal unmarshalRpc unmarshalSink cli msg = true.
Proof.
  rewrite processMessage_data. unfold isFinal.
  destruct (decode cli msg) as [m|]; [|by intros [? ?]].
  destruct (chunk m =? total m); [done|by intros [? ?]].
Qed.

(** A final fragment with at least one byte of content is released. *)
Lemma final_with_content_released (cli : KafkaClient) (msg : kafka.Message)
    (m : ipcMessage) :
  decode cli msg = Some m -> chunk m = total m -> elems (content m) <> [] ->
  is_Some (process cli msg).1.
Proof.
  intros Hd He Hne. destruct (processMessage_final cli msg m Hd He) as (-> & _).
  destruct (total m =? 1).
  - destruct (content m); [eauto|done].
  - by apply append_not_nil.
Qed.

Lemma releases_cons (data : slice) (out : list slice) :
  releases (data :: out) = ((if not_nil data then 1 else 0) + releases out)%nat.
Proof. unfold releases. cbn [List.filter]. by destruct (not_nil data). Qed.

Lemma finals_cons (cli : KafkaClient) (msg : kafka.Message) (rest : list kafka.Message) :
  finals unmarshalRpc unmarshalSink cli (msg :: rest) =
  ((if isFinal unmarshalRpc unmarshalSink cli msg then 1 else 0)
   + finals unmarshalRpc unmarshalSink cli rest)%nat.
Proof.
  unfold finals. cbn [List.filter].
  by destruct (isFinal unmarshalRpc unmarshalSink cli msg).
Qed.

Lemma releases_along_run (cli0 : KafkaClient) (msgs : list kafka.Message)
    (cli : KafkaClient) :
  IPC cli = IPC cli0 ->
  Forall2 (fun msg data =>
             (is_Some data -> isFinal unmarshalRpc unmarshalSink cli0 msg = true) /\
             (forall m, decode cli0 msg = Some m -> chunk m = total m ->
                        elems (content m) <> [] -> is_Some data))
    msgs (run cli msgs).1 /\
  (releases (run cli msgs).1 <= finals unmarshalRpc unmarshalSink cli0 msgs)%nat.
Proof.
  revert cli. induction msgs as [|msg rest IH]; intros cli Hi.
  - split; [constructor|done].
  - rewrite processAll_cons. cbn [fst].
    destruct (IH (process cli msg).2) as [IHp IHc].
    { by rewrite processMessage_IPC. }
    assert (Hrel : is_Some (process cli msg).1 ->
                   isFinal unmarshalRpc unmarshalSink cli0 msg = true).
    { intros Hs. rewrite <- (isFinal_ext cli cli0 msg Hi). by apply release_is_final. }
    split.
    + constructor; [|done]. split; [done|].
      intros m Hd. rewrite <- (decoded_ext cli cli0 msg Hi) in Hd.
      by apply final_with_content_released.
    + rewrite releases_cons, finals_cons.
      destruct (not_nil (process cli msg).1) eqn:Hn.
      * apply not_nil_is_Some in Hn. rewrite (Hrel Hn). lia.
      * destruct (isFinal unmarshalRpc unmarshalSink cli0 msg); lia.
Qed.

(** C1, as the code has it.  A release (a non-nil return of
    [processMessage]) happens only on the application of a final fragment:
    redelivered non-final fragments never release, before or after the
    completion, and a final fragment with at least one byte of content
    always releases.  So the releases of a sequence of applications are at
    most its applications of final fragments: a message whose final fragment
    is applied once is released at most once, and nothing suppresses a
    final fragment that is delivered again after the completion. *)
Theorem release_only_on_final (cli : KafkaClient) (msgs : list kafka.Message) :
  Forall2 (fun msg data =>
             (is_Some data -> isFinal unmarshalRpc unmarshalSink cli msg = true) /\
             (forall m, decode cli msg = Some m -> chunk m = total m ->
                        elems (content m) <> [] -> is_Some data))
    msgs (run cli msgs).1 /\
  (releases (run cli msgs).1 <= finals unmarshalRpc unmarshalSink cli msgs)%nat.
Proof. by apply releases_along_run. Qed.

(** *** Reassembly in chunk order *)

Lemma slice_of_elems (s : slice) : elems s <> [] -> s = Some (elems s).
Proof. destruct s; [done|]. by intros []. Qed.

(** The fragments [i .. n] of a message of [n > 1] chunks, applied in order
    above the watermark: only the last call returns a slice, the buffer with
    the contents appended in order, and the entry is gone. *)
Lemma run_fragmentsFrom (cli0 : KafkaClient) (k : string) (n : Z)
    (cs : list slice) :
  n <> 1 ->
  forall (i : Z) (msgs : list kafka.Message) (cli : KafkaClient),
    IPC cli = IPC cli0 ->
    cs <> [] ->
    i + Z.of_nat (length cs) - 1 = n ->
    tracked cli k < i ->
    carries unmarshalRpc unmarshalSink cli0 msgs (fragmentsFrom k n i cs) ->
    exists final : slice,
      (run cli msgs).1 = replicate (length cs - 1) None ++ [final] /\
      elems final = elems (buffered cli k) ++ concat (map elems cs) /\
      msgBuffer (run cli msgs).2 = delete k (msgBuffer cli) /\
      chunkTracker (run cli msgs).2 = delete k (chunkTracker cli).
Proof.
  intros Hn1. induction cs as [|c rest IH]; intros i msgs cli Hi Hne Hlen Hw Hc; [done|].
  cbn [fragmentsFrom] in Hc. apply Forall2_cons_inv_r in Hc as (msg & msgs' & Hd & Hc & ->).
  rewrite <- (decoded_ext cli cli0 msg Hi) in Hd.
  rewrite processAll_cons. cbn [fst snd].
  destruct rest as [|c' rest'].
  - (* the final fragment *)
    cbn [fragmentsFrom] in Hc. apply Forall2_nil_inv_r in Hc as ->.
    cbn [length] in Hlen.
    destruct (processMessage_final cli msg _ Hd) as (Hr & Hb & Hk); [cbn; lia|].
    cbn [total id content] in Hr, Hb, Hk.
    destruct (Z.eqb_spec n 1) as [|_]; [done|].
    exists (append (buffered cli k) c). cbn [processAll fst snd length replicate].
    rewrite Hr, elems_append. cbn. by rewrite app_nil_r.
  - (* a fragment before the final one *)
    set (m := {| chunk := i; total := n; id := k; content := c |}) in *.
    cbn [length] in Hlen.
    destruct (processMessage_accept cli msg m Hd) as (Hr & Hb & Ht & Hdb & Hdk);
      [cbn; lia|cbn; lia|].
    cbn [id content chunk m] in Hb, Ht, Hdb, Hdk.
    destruct (IH (i + 1) msgs' (process cli msg).2) as (final & Ho & He & Hfb & Hfk).
    + by rewrite processMessage_IPC.
    + done.
    + cbn [length]. lia.
    + lia.
    + done.
    + exists final. rewrite Hr, Ho, He, Hfb, Hfk, Hb, Hdb, Hdk, elems_append.
      cbn [length map concat]. rewrite <- app_assoc.
      replace (S (S (length rest')) - 1)%nat with (S (S (length rest') - 1)) by lia.
      done.
Qed.

(** C5, as the code has it.  The fragments 1/n .. n/n of a message, applied
    in order to a table without an entry for its identity: every call but
    the last returns nil, the last returns a slice that holds the
    concatenation of the contents in that order, and the table is the one
    before the first call, so no entry for the identity remains.  The
    returned slice is non-nil, a release, when the concatenation has at
    least one byte. *)
Theorem ordered_reassembly (cli : KafkaClient) (k : string) (cs : list slice)
    (msgs : list kafka.Message) :
  msgBuffer cli !! k = None -> chunkTracker cli !! k = None ->
  cs <> [] ->
  carries unmarshalRpc unmarshalSink cli msgs (fragments k cs) ->
  exists final : slice,
    (run cli msgs).1 = replicate (length cs - 1) None ++ [final] /\
    elems final = concat (map elems cs) /\
    (concat (map elems cs) <> [] -> final = Some (concat (map elems cs))) /\
    table (run cli msgs).2 = table cli /\
    msgBuffer (run cli msgs).2 !! k = None /\
    chunkTracker (run cli msgs).2 !! k = None.
Proof.
  intros Hb Hk Hne Hc. unfold fragments in Hc.
  assert (Hgoal : exists final : slice,
    (run cli msgs).1 = replicate (length cs - 1) None ++ [final] /\
    elems final = concat (map elems cs) /\
    msgBuffer (run cli msgs).2 = delete k (msgBuffer cli) /\
    chunkTracker (run cli msgs).2 = delete k (chunkTracker cli)).
  { destruct (Z.eq_dec (Z.of_nat (length cs)) 1) as [H1|H1].
    - (* a message of one chunk *)
      destruct cs as [|c [|c' rest]]; [done| |cbn [length] in H1; lia].
      cbn [fragmentsFrom length] in Hc.
      apply Forall2_cons_inv_r in Hc as (msg & msgs' & Hd & Hc & ->).
      apply Forall2_nil_inv_r in Hc as ->.
      destruct (processMessage_final cli msg _ Hd) as (Hr & Hfb & Hfk); [done|].
      cbn [total id content] in Hr, Hfb, Hfk. cbn in Hr.
      exists c. rewrite processAll_cons. cbn [processAll fst snd].
      rewrite Hr. cbn. by rewrite app_nil_r.
    - destruct (run_fragmentsFrom cli k _ cs H1 1 msgs cli)
        as (final & Ho & He & Hfb & Hfk); try done; try lia.
      + unfold tracked. rewrite Hk. cbn. lia.
      + exists final. unfold buffered in He. rewrite Hb in He. done. }
  destruct Hgoal as (final & Ho & He & Hfb & Hfk).
  exists final. split; [done|]. split; [done|].
  split.
  { intros Hn. rewrite <- He in Hn |- *. by apply slice_of_elems. }
  unfold table. rewrite Hfb, Hfk, !delete_id by done. done.
Qed.

End Reassembly.

(** ** The fragment decoder *)
Section Decoder.

Variable unmarshalRpc : list byte -> string + rpc.RpcMessageProto.
Variable unmarshalSink : list byte -> string + sink.SinkMessage.

Local Abbreviation getIpc := (getIpcMessage unmarshalRpc unmarshalSink).

(** Decoding leaves the table and the configuration of the client alone;
    the rpc branch counts the chunk. *)
Lemma getIpcMessage_frame (cli : KafkaClient) (msg : kafka.Message) :
  table (getIpc cli msg).2 = table cli /\
  IPC (getIpc cli msg).2 = IPC cli /\
  IsTelemetry (getIpc cli msg).2 = IsTelemetry cli.
Proof.
  unfold getIpcMessage.
  destruct (String.eqb (IPC cli) "rpc");
    [destruct (unmarshalRpc _) | destruct (unmarshalSink _)]; done.
Qed.

(** The only errors of [getIpcMessage] are the two decoding errors. *)
Lemma getIpcMessage_errors (cli : KafkaClient) (msg : kafka.Message) (e : error) :
  (getIpc cli msg).1 = inl e ->
  (exists cause, e = ErrInvalidRpc cause) \/ (exists cause, e = ErrInvalidSink cause).
Proof.
  unfold getIpcMessage.
  destruct (String.eqb (IPC cli) "rpc");
    [destruct (unmarshalRpc _) | destruct (unmarshalSink _)]; cbn; intros [= <-]; eauto.
Qed.

(** C8.  A sink envelope and an rpc envelope that carry the same identity
    [k], 0-based chunk number [c], total [t] and content [b] decode to the
    same fragment: chunk [c + 1] in [int32] arithmetic, total [t], identity
    [k] and content [b]; the chunk index is the integer [c + 1] for every
    [c] below the largest [int32]. *)
Theorem format_normalization (cliS cliR : KafkaClient) (msgS msgR : kafka.Message)
    (k : string) (c t : Z) (b : slice) :
  IPC cliS = "sink"%string -> IPC cliR = "rpc"%string ->
  unmarshalSink (kafka.Value msgS) =
    inr {| sink.GetMessageId := k; sink.GetContent := b;
           sink.GetCurrentChunkNumber := c; sink.GetTotalChunks := t |} ->
  unmarshalRpc (kafka.Value msgR) =
    inr {| rpc.RpcId := k; rpc.RpcContent := b;
           rpc.CurrentChunkNumber := c; rpc.TotalChunks := t |} ->
  is_int32 c ->
  (getIpc cliS msgS).1 = (getIpc cliR msgR).1 /\
  (getIpc cliS msgS).1 =
    inr {| chunk := add32 c 1; total := t; id := k; content := b |} /\
  (c < int32_max -> add32 c 1 = c + 1).
Proof.
  intros HS HR HdS HdR Hc.
  unfold getIpcMessage. rewrite HS, HR, HdS, HdR. cbn.
  repeat split. intros Hlt. by apply add32_exact.
Qed.

End Decoder.

(** ** The telemetry unwrapper and the dispatch loop *)
Section Dispatch.

Variable unmarshalRpc : list byte -> string + rpc.RpcMessageProto.
Variable unmarshalSink : list byte -> string + sink.SinkMessage.
Variable unmarshalTelemetry : list byte -> string + telemetry.TelemetryMessageLog.
Variable FlowMessage : Type.
Variable unmarshalFlow : list byte -> string + FlowMessage.
Variable marshalIndent : FlowMessage -> slice.
Context {H : Type}.
Variable action : slice -> H -> H.

Local Abbreviation process := (processMessage unmarshalRpc unmarshalSink).
Local Abbreviation decode := (decoded unmarshalRpc unmarshalSink).
Local Abbreviation emit := (emitFlows FlowMessage unmarshalFlow marshalIndent action).
Local Abbreviation unwrap :=
  (processTelemetry unmarshalTelemetry FlowMessage unmarshalFlow marshalIndent action).
Local Abbreviation handle :=
  (dispatch unmarshalRpc unmarshalSink unmarshalTelemetry FlowMessage unmarshalFlow
     marshalIndent action).

(** The handler is called on each record that decodes, in order, as the
    loop reaches it. *)
Lemma emitFlows_decoded (good : list telemetry.TelemetryMessage)
    (flows : list FlowMessage) (rest : list telemetry.TelemetryMessage) (h : H) :
  Forall2 (fun r f => unmarshalFlow (telemetry.Bytes r) = inr f) good flows ->
  emit (good ++ rest) h =
  emit rest (fold_left (fun h f => action (marshalIndent f) h) flows h).
Proof.
  intros Hg. revert h. induction Hg as [|r f good flows Hr _ IH]; intros h.
  - reflexivity.
  - cbn [app emitFlows fold_left]. rewrite Hr. apply IH.
Qed.

(** C2, as the code has it.  [processTelemetry] calls the handler while it
    decodes.  When the outer envelope does not decode, it fails without a
    call.  When the inner record at some position is the first that does
    not decode, it fails after it has called the handler once for each
    record before that position, in order, and calls it for no record from
    that position on.  When every record decodes, the handler is called
    once for each, in order, and no error is returned. *)
Theorem processTelemetry_emits_prefix (data : slice) (h : H) :
  match unmarshalTelemetry (elems data) with
  | inl err => unwrap data h = (Some (ErrInvalidTelemetry err), h)
  | inr msgLog =>
      (forall flows,
         Forall2 (fun r f => unmarshalFlow (telemetry.Bytes r) = inr f)
           (telemetry.Message msgLog) flows ->
         unwrap data h =
         (None, fold_left (fun h f => action (marshalIndent f) h) flows h)) /\
      (forall good bad rest flows err,
         telemetry.Message msgLog = good ++ bad :: rest ->
         Forall2 (fun r f => unmarshalFlow (telemetry.Bytes r) = inr f) good flows ->
         unmarshalFlow (telemetry.Bytes bad) = inl err ->
         length flows = length good /\
         unwrap data h =
         (Some (ErrInvalidNetflow err),
          fold_left (fun h f => action (marshalIndent f) h) flows h))
  end.
Proof.
  unfold processTelemetry.
  destruct (unmarshalTelemetry (elems data)) as [err|msgLog]; [reflexivity|].
  split.
  - intros flows Hall.
    rewrite <- (app_nil_r (telemetry.Message msgLog)).
    by rewrite (emitFlows_decoded _ flows [] h Hall).
  - intros good bad rest flows err -> Hall Hbad.
    split; [symmetry; by eapply Forall2_length|].
    rewrite (emitFlows_decoded _ flows (bad :: rest) h Hall).
    cbn [emitFlows]. by rewrite Hbad.
Qed.

Lemma processMessage_IsTelemetry (cli : KafkaClient) (msg : kafka.Message) :
  IsTelemetry (process cli msg).2 = IsTelemetry cli.
Proof.
  unfold processMessage, getIpcMessage. cbn [IPC inc_chunkProcessed].
  destruct (String.eqb (IPC cli) "rpc");
    [destruct (unmarshalRpc _) as [err|pb] | destruct (unmarshalSink _) as [err|pb]];
    cbn [fst snd]; try reflexivity.
  all: repeat match goal with |- context [if ?c then _ else _] => destruct c end;
    reflexivity.
Qed.

(** C3, as the code has it.  Completion is signalled by the returned slice
    being non-nil, and the loop hands a payload on (to the handler, or to
    the telemetry unwrapper in telemetry mode) exactly on a non-nil return.
    A non-final fragment returns nil.  A final fragment returns its
    own content when the message has one chunk and the buffer with its
    content appended otherwise; this is non-nil, and dispatched, whenever
    the content has at least one byte.  A completed payload that comes out
    as the nil slice is handled like an incomplete message: no call. *)
Theorem dispatch_on_non_nil (cli : KafkaClient) (e : kafka.Message) (h : H) :
  let data := (process cli e).1 in
  (handle cli (kafka.EvMessage e) h).2 =
    (if not_nil data
     then if IsTelemetry cli then (unwrap data h).2 else action data h
     else h) /\
  (forall m, decode cli e = Some m -> chunk m <> total m -> data = None) /\
  (forall m, decode cli e = Some m -> chunk m = total m ->
     data = if total m =? 1 then content m
            else append (buffered cli (id m)) (content m)) /\
  (forall m, decode cli e = Some m -> chunk m = total m ->
     elems (content m) <> [] -> is_Some data).
Proof.
  intros data. subst data. split; [|split; [|split]].
  - unfold dispatch. pose proof (processMessage_IsTelemetry cli e) as Hk.
    destruct (process cli e) as [data cli1]. cbn [fst snd] in *.
    destruct (not_nil data); [|reflexivity].
    cbn [IsTelemetry inc_msgProcessed]. rewrite Hk.
    by destruct (IsTelemetry cli).
  - intros m Hd Hne. rewrite processMessage_data, Hd.
    by destruct (Z.eqb_spec (chunk m) (total m)).
  - intros m Hd He. by destruct (processMessage_final _ _ cli e m Hd He) as (-> & _).
  - intros m Hd He Hne. by eapply final_with_content_released.
Qed.

End Dispatch.

(** ** Initialisation *)
Section Startup.

Variable unmarshalRpc : list byte -> string + rpc.RpcMessageProto.
Variable unmarshalSink : list byte -> string + sink.SinkMessage.
Variable unmarshalTelemetry : list byte -> string + telemetry.TelemetryMessageLog.
Variable FlowMessage : Type.
Variable unmarshalFlow : list byte -> string + FlowMessage.
Variable marshalIndent : FlowMessage -> slice.
Variable NewConsumer : string -> string -> list string -> string + KafkaConsumer.

Local Abbreviation init := (Initialize NewConsumer).
Local Abbreviation run_main :=
  (main unmarshalRpc unmarshalSink unmarshalTelemetry FlowMessage unmarshalFlow
     marshalIndent NewConsumer).

Lemma checkIPC_error (cli : KafkaClient) :
  (exists err, checkIPC cli = inl err) <-> invalidMode cli.
Proof.
  unfold checkIPC, invalidMode.
  destruct (String.eqb_spec (IPC cli) "") as [He|He];
    destruct (String.eqb_spec (IPC cli) "sink") as [Hs|Hs];
    destruct (String.eqb_spec (IPC cli) "rpc") as [Hr|Hr]; cbn;
    split; try (intros [err [=]]); try tauto; eauto.
Qed.

(** The mode after the check: an empty mode became [sink]. *)
Lemma checkIPC_mode (cli cli' : KafkaClient) :
  checkIPC cli = inr cli' ->
  consumer cli' = consumer cli /\ Bootstrap cli' = Bootstrap cli /\
  GroupID cli' = GroupID cli /\ Parameters cli' = Parameters cli /\
  Topic cli' = Topic cli /\
  ((IPC cli = ""%string /\ IPC cli' = "sink"%string) \/
   (IPC cli' = IPC cli /\ (IPC cli = "sink"%string \/ IPC cli = "rpc"%string))).
Proof.
  unfold checkIPC.
  destruct (String.eqb_spec (IPC cli) "") as [He|He].
  - intros [= <-]. cbn. tauto.
  - destruct (String.eqb_spec (IPC cli) "sink") as [Hs|Hs];
      destruct (String.eqb_spec (IPC cli) "rpc") as [Hr|Hr]; cbn;
      intros [= <-]; tauto.
Qed.

(** C9, as the code has it.  [Initialize] returns an error if and only if
    the consumer was already initialised, or the mode is neither empty nor
    [sink] nor [rpc], or the consumer cannot be created, or the subscription
    fails.  When it returns no error, the mode is [sink] (also for an empty
    configured mode) or [rpc].  [main] starts the loop when [Initialize]
    returns no error and exits without starting it otherwise.  No call of
    [getIpcMessage], so no processing of a message, produces the mode
    error. *)
Theorem Initialize_fails_iff (cli : KafkaClient) :
  (is_Some (init cli).1 <->
   alreadyInitialized cli \/ invalidMode cli \/
   creationFails NewConsumer cli \/ subscriptionFails NewConsumer cli) /\
  ((init cli).1 = None ->
   (IPC cli = ""%string /\ IPC (init cli).2 = "sink"%string) \/
   (IPC (init cli).2 = IPC cli /\ (IPC cli = "sink"%string \/ IPC cli = "rpc"%string))) /\
  (forall (H : Type) (action : slice -> H -> H) events (h : H),
     (is_Some (init cli).1 ->
      run_main action cli events h = Fatal "Cannot initialize consumer") /\
     ((init cli).1 = None ->
      run_main action cli events h =
      Done (loop unmarshalRpc unmarshalSink unmarshalTelemetry FlowMessage
              unmarshalFlow marshalIndent action
              (set_stopping false (init cli).2) events h))) /\
  (forall cli' msg ipc,
     (getIpcMessage unmarshalRpc unmarshalSink cli' msg).1 <> inl (ErrInvalidIPC ipc)).
Proof.
  split; [|split; [|split]].
  - unfold Initialize, alreadyInitialized, creationFails, subscriptionFails.
    rewrite <- checkIPC_error.
    destruct (consumer cli) eqn:Hcons; cbn [fst];
      try (split; [intros _; left; done | eauto]).
    destruct (checkIPC cli) as [err|cli1] eqn:Hchk; cbn [fst].
    { split; [intros _; right; left; eauto | eauto]. }
    apply checkIPC_mode in Hchk as (_ & -> & -> & -> & HT & _).
    destruct (NewConsumer _ _ _) as [err|c] eqn:Hnew; cbn [fst].
    { split; [intros _; right; right; left; eauto | eauto]. }
    cbn [Topic set_consumer]. rewrite HT.
    destruct (Subscribe c (Topic cli)) as [err|] eqn:Hsub; cbn [fst].
    { split; [intros _; right; right; right; eauto | eauto]. }
    split; [by intros [? ?]|].
    intros [Ha|[[err [=]]|[[err [=]]|(c' & err & [= <-] & Hs)]]]; [done|].
    rewrite Hsub in Hs. done.
  - unfold Initialize. destruct (consumer cli); cbn [fst snd]; try done.
    destruct (checkIPC cli) as [err|cli1] eqn:Hchk; cbn [fst snd]; [done|].
    apply checkIPC_mode in Hchk as (_ & _ & _ & _ & _ & Hm).
    destruct (NewConsumer _ _ _) as [err|c]; cbn [fst snd]; [done|].
    destruct (Subscribe c _); cbn [fst snd]; [done|].
    intros _. cbn. tauto.
  - intros H action events h. unfold main.
    split.
    + destruct (init cli) as [[err|] cli1]; cbn [fst]; [done|by intros [? ?]].
    + unfold Start. unfold Initialize.
      destruct (consumer cli); cbn [fst snd]; try done.
      destruct (checkIPC cli) as [err|cli1]; cbn [fst snd]; [done|].
      destruct (NewConsumer _ _ _) as [err|c]; cbn [fst snd]; [done|].
      destruct (Subscribe c _); cbn [fst snd]; done.
  - intros cli' msg ipc Herr.
    destruct (getIpcMessage_errors _ _ cli' msg _ Herr) as [[? [=]]|[? [=]]].
Qed.

End Startup.

(** * The client on concrete messages

    The statements of this part run the client of [Sample]. *)

(** The examples of the specification: [AB], [CD], [EF] as chunks 1/3, 2/3,
    3/3 of [m1] give [ABCDEF] on the third call and leave the table empty;
    [hello] as chunk 1/1 is returned at once; three telemetry records give
    three calls in order. *)
Example reassembly_ABCDEF :
  let run :=
    Sample.processList Sample.ready
      [Sample.frame "m1" 0 3 "AB"; Sample.frame "m1" 1 3 "CD";
       Sample.frame "m1" 2 3 "EF"] in
  run.1 = [None; None; bytes "ABCDEF"] /\ table run.2 = (∅, ∅).
Proof. vm_compute. split; reflexivity. Qed.

Example single_fragment_hello_handled :
  (Sample.handle Sample.ready (kafka.EvMessage (Sample.frame "m1" 0 1 "hello")) []).2
  = [bytes "hello"].
Proof. vm_compute. reflexivity. Qed.

Example three_records_three_calls :
  Sample.unwrap (Some [x0a; x31; x32; x33]) [] =
  (None, [Some [x31]; Some [x32]; Some [x33]]).
Proof. vm_compute. reflexivity. Qed.

Example malformed_envelope_no_call :
  Sample.unwrap (Some [x0b; x31; x32; x33]) [] =
  (Some (ErrInvalidTelemetry "proto: cannot parse invalid wire-format data"), []).
Proof. vm_compute. reflexivity. Qed.

Example interleaved_messages :
  (Sample.processList Sample.ready
     [Sample.frame "a" 0 2 "a1"; Sample.frame "b" 0 2 "b1";
      Sample.frame "a" 1 2 "a2"; Sample.frame "b" 1 2 "b2"]).1
  = [None; None; bytes "a1a2"; bytes "b1b2"].
Proof. vm_compute. reflexivity. Qed.

(** C1: the final fragment of [m1], delivered again after the completion,
    is released a second time, with its own payload only.  Chunks 1/2 [AB]
    and 2/2 [CD] release [ABCD]; the second 2/2 [CD] releases [CD]. *)
Lemma redelivered_final_released_again :
  let msgs :=
    [Sample.frame "m1" 0 2 "AB"; Sample.frame "m1" 1 2 "CD";
     Sample.frame "m1" 1 2 "CD"] in
  let out := (Sample.processList Sample.ready msgs).1 in
  carries Sample.unmarshalRpc Sample.unmarshalSink Sample.ready msgs
    [{| chunk := 1; total := 2; id := "m1"; content := bytes "AB" |};
     {| chunk := 2; total := 2; id := "m1"; content := bytes "CD" |};
     {| chunk := 2; total := 2; id := "m1"; content := bytes "CD" |}] /\
  out = [None; bytes "ABCD"; bytes "CD"] /\ releases out = 2%nat.
Proof.
  split; [repeat constructor|].
  vm_compute. split; reflexivity.
Qed.

(** C2: an envelope of three records whose second record is malformed.
    The handler has been called once, with the first record, when the error
    is returned. *)
Lemma malformed_second_record_emits_first :
  let data : slice := Some [x0a; x31; xff; x33] in
  Sample.unmarshalTelemetry (elems data) =
    inr {| telemetry.Message :=
             [{| telemetry.Bytes := [x31] |}; {| telemetry.Bytes := [xff] |};
              {| telemetry.Bytes := [x33] |}] |} /\
  Sample.unmarshalFlow [x31] = inr x31 /\
  Sample.unmarshalFlow [xff] = inl "proto: cannot parse invalid wire-format data"%string /\
  Sample.unmarshalFlow [x33] = inr x33 /\
  Sample.unwrap data [] =
  (Some (ErrInvalidNetflow "proto: cannot parse invalid wire-format data"),
   [Some [x31]]).
Proof. vm_compute. repeat split; reflexivity. Qed.

(** C3: the message [m1] of one chunk without content is complete with a
    payload of length zero, and [processMessage] returns nil for it as it
    does for the first chunk of two of [m2]; the handler is not called. *)
Lemma empty_payload_returned_as_nil :
  let complete := Sample.frame "m1" 0 1 "" in
  let incomplete := Sample.frame "m2" 0 2 "AB" in
  decoded Sample.unmarshalRpc Sample.unmarshalSink Sample.ready complete =
    Some {| chunk := 1; total := 1; id := "m1"; content := None |} /\
  (Sample.process Sample.ready complete).1 = None /\
  (Sample.process Sample.ready incomplete).1 = None /\
  (Sample.handle Sample.ready (kafka.EvMessage complete) []).2 = [].
Proof. vm_compute. repeat split; reflexivity. Qed.

(** C5: the message [m1] of two chunks without content, applied in chunk
    order to the empty table: both calls return nil, so nothing is
    released. *)
Lemma empty_message_not_released :
  let msgs := [Sample.frame "m1" 0 2 ""; Sample.frame "m1" 1 2 ""] in
  let out := (Sample.processList Sample.ready msgs).1 in
  carries Sample.unmarshalRpc Sample.unmarshalSink Sample.ready msgs
    (fragments "m1" [None; None]) /\
  out = [None; None] /\ releases out = 0%nat.
Proof.
  split; [|vm_compute; split; reflexivity].
  repeat constructor.
Qed.

(** C7: a fragment 1/1 of [m1] that arrives while [m1] has an entry (from
    chunk 1/3 [AB]) is returned, and the entry is deleted: the table is not
    the one before the call. *)
Lemma single_fragment_deletes_entry :
  let before := (Sample.process Sample.ready (Sample.frame "m1" 0 3 "AB")).2 in
  let call := Sample.process before (Sample.frame "m1" 0 1 "hello") in
  decoded Sample.unmarshalRpc Sample.unmarshalSink before (Sample.frame "m1" 0 1 "hello") =
    Some {| chunk := 1; total := 1; id := "m1"; content := bytes "hello" |} /\
  call.1 = bytes "hello" /\
  msgBuffer before !! "m1"%string = Some (bytes "AB") /\
  chunkTracker before !! "m1"%string = Some 1 /\
  msgBuffer call.2 !! "m1"%string = None /\
  chunkTracker call.2 !! "m1"%string = None /\
  table call.2 <> table before.
Proof.
  cbv zeta. repeat split; try (vm_compute; reflexivity).
  intros Heq. apply (f_equal (fun t => t.1 !! "m1"%string)) in Heq.
  vm_compute in Heq. discriminate Heq.
Qed.

(** C9: with a valid mode, no consumer yet, and no failing subscription,
    [Initialize] fails because the consumer cannot be created. *)
Lemma creation_failure_not_listed :
  (Initialize Sample.NewConsumer Sample.flagsFoo).1 =
    Some (ErrCannotCreateConsumer "No such configuration property: foo") /\
  ~ (invalidMode Sample.flagsFoo \/ alreadyInitialized Sample.flagsFoo \/
     subscriptionFails Sample.NewConsumer Sample.flagsFoo).
Proof.
  split; [vm_compute; reflexivity|].
  intros [(_ & Hs & _)|[Ha|(c & err & Hn & _)]].
  - by apply Hs.
  - by apply Ha.
  - vm_compute in Hn. discriminate Hn.
Qed.

(** C4 on chunk 1/3 [AB] of [m1], applied twice to the empty table. *)
Lemma idempotent_first_chunk :
  let cli := Sample.ready in
  let msg := Sample.frame "m1" 0 3 "AB" in
  let m := {| chunk := 1; total := 3; id := "m1"; content := bytes "AB" |} in
  (decoded Sample.unmarshalRpc Sample.unmarshalSink cli msg = Some m /\ chunk m < total m) /\
  let once := (processMessage Sample.unmarshalRpc Sample.unmarshalSink cli msg).2 in
  let twice := (processMessage Sample.unmarshalRpc Sample.unmarshalSink once msg).2 in
  (processMessage Sample.unmarshalRpc Sample.unmarshalSink cli msg).1 = None /\
  (processMessage Sample.unmarshalRpc Sample.unmarshalSink once msg).1 = None /\
  table twice = table once /\
  forall msgs,
    (processAll Sample.unmarshalRpc Sample.unmarshalSink twice msgs).1 =
    (processAll Sample.unmarshalRpc Sample.unmarshalSink once msgs).1.
Proof.
  cbv zeta. split.
  - split; [vm_compute; reflexivity | reflexivity].
  - apply (processMessage_idempotent Sample.unmarshalRpc Sample.unmarshalSink
             Sample.ready (Sample.frame "m1" 0 3 "AB")
             {| chunk := 1; total := 3; id := "m1"; content := bytes "AB" |}).
    + vm_compute; reflexivity.
    + reflexivity.
Defined.

(** C6 on the example of the claim: after chunks 1/3 [AB] and 2/3 [CD] of
    [m1], chunk 1/3 is delivered again. *)
Lemma stale_first_chunk_discarded :
  let cli :=
    (Sample.processList Sample.ready
       [Sample.frame "m1" 0 3 "AB"; Sample.frame "m1" 1 3 "CD"]).2 in
  let msg := Sample.frame "m1" 0 3 "AB" in
  let m := {| chunk := 1; total := 3; id := "m1"; content := bytes "AB" |} in
  (decoded Sample.unmarshalRpc Sample.unmarshalSink cli msg = Some m /\
   chunk m <> total m /\ tracked cli (id m) = 2) /\
  let after := (processMessage Sample.unmarshalRpc Sample.unmarshalSink cli msg).2 in
  (processMessage Sample.unmarshalRpc Sample.unmarshalSink cli msg).1 = None /\
  buffered after "m1" = buffered cli "m1" /\
  tracked after "m1" = tracked cli "m1" /\
  table after = table cli /\
  forall msgs,
    (processAll Sample.unmarshalRpc Sample.unmarshalSink after msgs).1 =
    (processAll Sample.unmarshalRpc Sample.unmarshalSink cli msgs).1.
Proof.
  cbv zeta. split.
  - split; [|split]; [vm_compute; reflexivity | discriminate | vm_compute; reflexivity].
  - apply (stale_fragment_discarded Sample.unmarshalRpc Sample.unmarshalSink
             (Sample.processList Sample.ready
                [Sample.frame "m1" 0 3 "AB"; Sample.frame "m1" 1 3 "CD"]).2
             (Sample.frame "m1" 0 3 "AB")
             {| chunk := 1; total := 3; id := "m1"; content := bytes "AB" |}).
    + vm_compute; reflexivity.
    + discriminate.
    + vm_compute. discriminate.
Defined.

(** C7 on the example of the specification: [hello] as chunk 1/1 of [m1],
    applied to the empty table. *)
Lemma single_fragment_hello :
  let cli := Sample.ready in
  let msg := Sample.frame "m1" 0 1 "hello" in
  let after := (processMessage Sample.unmarshalRpc Sample.unmarshalSink cli msg).2 in
  (processMessage Sample.unmarshalRpc Sample.unmarshalSink cli msg).1 = bytes "hello" /\
  msgBuffer after = delete "m1"%string (msgBuffer cli) /\
  chunkTracker after = delete "m1"%string (chunkTracker cli) /\
  (msgBuffer cli !! "m1"%string = None -> chunkTracker cli !! "m1"%string = None ->
   table after = table cli).
Proof.
  cbv zeta.
  apply (single_fragment_release Sample.unmarshalRpc Sample.unmarshalSink
           Sample.ready (Sample.frame "m1" 0 1 "hello")
           {| chunk := 1; total := 1; id := "m1"; content := bytes "hello" |}).
  - vm_compute; reflexivity.
  - reflexivity.
  - reflexivity.
Defined.

(** C5 on the example of the claim: [AB], [CD], [EF] as chunks 1/3, 2/3 and
    3/3 of [m1]. *)
Lemma ordered_reassembly_m1 :
  let msgs :=
    [Sample.frame "m1" 0 3 "AB"; Sample.frame "m1" 1 3 "CD";
     Sample.frame "m1" 2 3 "EF"] in
  let cs := [bytes "AB"; bytes "CD"; bytes "EF"] in
  let run := processAll Sample.unmarshalRpc Sample.unmarshalSink Sample.ready msgs in
  exists final : slice,
    run.1 = replicate (length cs - 1) None ++ [final] /\
    elems final = concat (map elems cs) /\
    (concat (map elems cs) <> [] -> final = Some (concat (map elems cs))) /\
    table run.2 = table Sample.ready /\
    msgBuffer run.2 !! "m1"%string = None /\
    chunkTracker run.2 !! "m1"%string = None.
Proof.
  cbv zeta.
  apply (ordered_reassembly Sample.unmarshalRpc Sample.unmarshalSink Sample.ready
           "m1" [bytes "AB"; bytes "CD"; bytes "EF"]).
  - vm_compute; reflexivity.
  - vm_compute; reflexivity.
  - discriminate.
  - repeat constructor.
Defined.

(** C8 on the example of the claim: 0-based chunk 1 of 3 of [m1] with the
    content [AB], in a sink client and in an rpc client. *)
Lemma format_normalization_m1 :
  let msg := Sample.frame "m1" 1 3 "AB" in
  (getIpcMessage Sample.unmarshalRpc Sample.unmarshalSink Sample.ready msg).1 =
  (getIpcMessage Sample.unmarshalRpc Sample.unmarshalSink Sample.readyRpc msg).1 /\
  (getIpcMessage Sample.unmarshalRpc Sample.unmarshalSink Sample.ready msg).1 =
    inr {| chunk := add32 1 1; total := 3; id := "m1"; content := bytes "AB" |} /\
  (1 < int32_max -> add32 1 1 = 1 + 1).
Proof.
  cbv zeta.
  apply (format_normalization Sample.unmarshalRpc Sample.unmarshalSink
           Sample.ready Sample.readyRpc
           (Sample.frame "m1" 1 3 "AB") (Sample.frame "m1" 1 3 "AB")
           "m1" 1 3 (bytes "AB")).
  - vm_compute; reflexivity.
  - vm_compute; reflexivity.
  - vm_compute; reflexivity.
  - vm_compute; reflexivity.
  - unfold is_int32, int32_min, int32_max. lia.
Defined.

(** * Further properties of the reassembly table *)
Section Entries.

Variable unmarshalRpc : list byte -> string + rpc.RpcMessageProto.
Variable unmarshalSink : list byte -> string + sink.SinkMessage.

Local Abbreviation process := (processMessage unmarshalRpc unmarshalSink).
Local Abbreviation decode := (decoded unmarshalRpc unmarshalSink).
Local Abbreviation run := (processAll unmarshalRpc unmarshalSink).

(** The entry of [k] in both maps. *)
Local Abbreviation entry cli k := (msgBuffer cli !! k, chunkTracker cli !! k).

Lemma hasId_ext (cli cli' : KafkaClient) (k : string) (msg : kafka.Message) :
  IPC cli = IPC cli' ->
  hasId unmarshalRpc unmarshalSink cli k msg = hasId unmarshalRpc unmarshalSink cli' k msg.
Proof.
  intros Hi. unfold hasId.
  by rewrite (decoded_ext unmarshalRpc unmarshalSink cli cli' msg Hi).
Qed.

(** The entry of [k] after a call, by the fragment that the message
    decodes to. *)
Lemma processMessage_entry (cli : KafkaClient) (msg : kafka.Message) (k : string) :
  entry (process cli msg).2 k =
  match decode cli msg with
  | None => entry cli k
  | Some m =>
      if String.eqb (id m) k then
        if chunk m =? total m then (None, None)
        else if tracked cli k <? chunk m then
          (Some (append (buffered cli k) (content m)), Some (chunk m))
        else entry cli k
      else entry cli k
  end.
Proof.
  pose proof (processMessage_table unmarshalRpc unmarshalSink cli msg) as Ht.
  change (entry (process cli msg).2 k)
    with ((table (process cli msg).2).1 !! k, (table (process cli msg).2).2 !! k).
  rewrite Ht. destruct (decode cli msg) as [m|]; [|done].
  destruct (String.eqb_spec (id m) k) as [->|Hne].
  - destruct (chunk m =? total m); cbn [fst snd].
    + by rewrite !lookup_delete_eq.
    + destruct (tracked cli k <? chunk m); cbn [fst snd]; [|done].
      by rewrite !lookup_insert_eq.
  - destruct (chunk m =? total m); cbn [fst snd].
    + by rewrite !lookup_delete_ne.
    + destruct (tracked cli (id m) <? chunk m); cbn [fst snd]; [|done].
      by rewrite !lookup_insert_ne.
Qed.

Lemma other_entries_step (cli : KafkaClient) (msg : kafka.Message) (k : string) :
  hasId unmarshalRpc unmarshalSink cli k msg = false ->
  msgBuffer (process cli msg).2 !! k = msgBuffer cli !! k /\
  chunkTracker (process cli msg).2 !! k = chunkTracker cli !! k.
Proof.
  intros Hid. pose proof (processMessage_entry cli msg k) as He.
  unfold hasId in Hid. destruct (decode cli msg) as [m|].
  - rewrite Hid in He. by injection He as Hb Hc.
  - by injection He as Hb Hc.
Qed.

(** X1.  A call of [processMessage] changes no entry but the one of the
    message that its fragment belongs to: for a message that does not
    decode, or decodes to a fragment of another message, the buffered bytes
    and the watermark of [k] are the ones before the call. *)
Theorem other_entries_untouched (cli : KafkaClient) (msg : kafka.Message) (k : string) :
  hasId unmarshalRpc unmarshalSink cli k msg = false ->
  msgBuffer (process cli msg).2 !! k = msgBuffer cli !! k /\
  chunkTracker (process cli msg).2 !! k = chunkTracker cli !! k /\
  buffered (process cli msg).2 k = buffered cli k /\
  tracked (process cli msg).2 k = tracked cli k.
Proof.
  intros Hid. destruct (other_entries_step cli msg k Hid) as [Hb Hc].
  unfold buffered, tracked. by rewrite Hb, Hc.
Qed.

(** What a call returns, by the entry of the message of its fragment. *)
Lemma processMessage_data_entry (cli cli' : KafkaClient) (msg : kafka.Message)
    (m : ipcMessage) :
  IPC cli = IPC cli' -> decode cli msg = Some m ->
  entry cli (id m) = entry cli' (id m) ->
  (process cli msg).1 = (process cli' msg).1 /\
  entry (process cli msg).2 (id m) = entry (process cli' msg).2 (id m).
Proof.
  intros Hi Hd He.
  assert (Hd' : decode cli' msg = Some m).
  { by rewrite <- (decoded_ext unmarshalRpc unmarshalSink cli cli' msg Hi). }
  injection He as Hb Hc.
  rewrite !processMessage_data, !processMessage_entry, Hd, Hd'.
  unfold buffered, tracked. by rewrite Hb, Hc.
Qed.

Lemma outputsFor_cons (cli : KafkaClient) (k : string) (msg : kafka.Message)
    (rest : list kafka.Message) (out : slice) (outs : list slice) :
  map snd (List.filter (fun p => hasId unmarshalRpc unmarshalSink cli k (fst p))
             (combine (msg :: rest) (out :: outs))) =
  (if hasId unmarshalRpc unmarshalSink cli k msg then [out] else []) ++
  map snd (List.filter (fun p => hasId unmarshalRpc unmarshalSink cli k (fst p))
             (combine rest outs)).
Proof.
  cbn [combine List.filter fst].
  by destruct (hasId unmarshalRpc unmarshalSink cli k msg).
Qed.

(** Two runs from clients that agree on the entry of [k], one over all
    messages and one over the messages of [k] only. *)
Lemma run_filtered (cli0 : KafkaClient) (k : string) (msgs : list kafka.Message) :
  forall a b : KafkaClient,
    IPC a = IPC cli0 -> IPC b = IPC cli0 -> entry a k = entry b k ->
    map snd (List.filter (fun p => hasId unmarshalRpc unmarshalSink cli0 k (fst p))
               (combine msgs (run a msgs).1)) =
    (run b (List.filter (hasId unmarshalRpc unmarshalSink cli0 k) msgs)).1 /\
    entry (run a msgs).2 k =
    entry (run b (List.filter (hasId unmarshalRpc unmarshalSink cli0 k) msgs)).2 k.
Proof.
  induction msgs as [|msg rest IH]; intros a b Ha Hb He; [done|].
  rewrite processAll_cons. cbn [fst snd]. rewrite outputsFor_cons.
  cbn [List.filter].
  destruct (hasId unmarshalRpc unmarshalSink cli0 k msg) eqn:Hid.
  - (* a fragment of [k]: both runs take the step *)
    rewrite processAll_cons. cbn [fst snd app].
    assert (Hda : exists m, decode a msg = Some m /\ id m = k).
    { rewrite (hasId_ext cli0 a k msg) in Hid by done. unfold hasId in Hid.
      destruct (decode a msg) as [m|]; [|done].
      exists m. split; [done|]. by apply String.eqb_eq. }
    destruct Hda as (m & Hda & <-).
    destruct (processMessage_data_entry a b msg m) as [Ho Hn];
      [congruence|done|done|].
    destruct (IH (process a msg).2 (process b msg).2) as [IHo IHe];
      [by rewrite processMessage_IPC|by rewrite processMessage_IPC|done|].
    by rewrite Ho, IHo, IHe.
  - (* another message: only the full run takes the step *)
    cbn [app].
    rewrite (hasId_ext cli0 a k msg) in Hid by done.
    destruct (other_entries_step a msg k Hid) as [Hm Hc].
    apply IH; [by rewrite processMessage_IPC|done|].
    by rewrite Hm, Hc.
Qed.

(** X2.  Messages are reassembled independently: in a run over interleaved
    fragments of many messages, the calls for the fragments of [k] return
    what they return in the run over the fragments of [k] alone, and the
    entry of [k] at the end is the same. *)
Theorem messages_reassemble_independently (cli : KafkaClient) (k : string)
    (msgs : list kafka.Message) :
  let own := List.filter (hasId unmarshalRpc unmarshalSink cli k) msgs in
  outputsFor unmarshalRpc unmarshalSink cli k msgs = (run cli own).1 /\
  msgBuffer (run cli msgs).2 !! k = msgBuffer (run cli own).2 !! k /\
  chunkTracker (run cli msgs).2 !! k = chunkTracker (run cli own).2 !! k.
Proof.
  intros own. subst own.
  destruct (run_filtered cli k msgs cli cli) as [Ho He]; try done.
  injection He as Hb Hc. done.
Qed.

Lemma isFinalFor_ext (cli cli' : KafkaClient) (k : string) (msg : kafka.Message) :
  IPC cli = IPC cli' ->
  isFinalFor unmarshalRpc unmarshalSink cli k msg =
  isFinalFor unmarshalRpc unmarshalSink cli' k msg.
Proof.
  intros Hi. unfold isFinalFor.
  by rewrite (hasId_ext cli cli' k msg Hi),
    (isFinal_ext unmarshalRpc unmarshalSink cli cli' msg Hi).
Qed.

(** One call that is not for a final fragment of [k] keeps the entry of
    [k], does not lower its watermark and only appends to its bytes. *)
Lemma step_keeps_entry (cli : KafkaClient) (k : string) (msg : kafka.Message) :
  isFinalFor unmarshalRpc unmarshalSink cli k msg = false ->
  (is_Some (msgBuffer cli !! k) -> is_Some (msgBuffer (process cli msg).2 !! k)) /\
  (is_Some (chunkTracker cli !! k) -> is_Some (chunkTracker (process cli msg).2 !! k)) /\
  tracked cli k <= tracked (process cli msg).2 k /\
  elems (buffered cli k) `prefix_of` elems (buffered (process cli msg).2 k).
Proof.
  intros Hf. pose proof (processMessage_entry cli msg k) as He.
  unfold isFinalFor, hasId, isFinal in Hf.
  assert (Hsame : entry (process cli msg).2 k = entry cli k ->
    (is_Some (msgBuffer cli !! k) -> is_Some (msgBuffer (process cli msg).2 !! k)) /\
    (is_Some (chunkTracker cli !! k) -> is_Some (chunkTracker (process cli msg).2 !! k)) /\
    tracked cli k <= tracked (process cli msg).2 k /\
    elems (buffered cli k) `prefix_of` elems (buffered (process cli msg).2 k)).
  { intros [= Hb Hc]. unfold tracked, buffered. rewrite Hb, Hc.
    repeat split; try done; lia. }
  destruct (decode cli msg) as [m|]; [|by apply Hsame].
  destruct (String.eqb (id m) k); [|by apply Hsame].
  cbn [andb] in Hf. rewrite Hf in He.
  destruct (Z.ltb_spec (tracked cli k) (chunk m)) as [Hlt|_]; [|by apply Hsame].
  injection He as Hb Hc. unfold tracked at 2, buffered at 2. rewrite Hb, Hc.
  cbn [default from_option Datatypes.id].
  split; [eauto|]. split; [eauto|]. split; [lia|].
  rewrite elems_append. by eexists.
Qed.

(** X3.  The entry of a message stays in the table until a final fragment
    of that message is processed: along any run without one, the entry is
    kept, its watermark never decreases, and its buffered bytes are only
    appended to.  In particular nothing evicts the entry of a message whose
    final fragment never arrives. *)
Theorem entry_kept_until_final (cli : KafkaClient) (k : string)
    (msgs : list kafka.Message) :
  Forall (fun msg => isFinalFor unmarshalRpc unmarshalSink cli k msg = false) msgs ->
  (is_Some (msgBuffer cli !! k) -> is_Some (msgBuffer (run cli msgs).2 !! k)) /\
  (is_Some (chunkTracker cli !! k) -> is_Some (chunkTracker (run cli msgs).2 !! k)) /\
  tracked cli k <= tracked (run cli msgs).2 k /\
  elems (buffered cli k) `prefix_of` elems (buffered (run cli msgs).2 k).
Proof.
  intros Hall.
  enough (Hgen : forall st, IPC st = IPC cli ->
    (is_Some (msgBuffer st !! k) -> is_Some (msgBuffer (run st msgs).2 !! k)) /\
    (is_Some (chunkTracker st !! k) -> is_Some (chunkTracker (run st msgs).2 !! k)) /\
    tracked st k <= tracked (run st msgs).2 k /\
    elems (buffered st k) `prefix_of` elems (buffered (run st msgs).2 k))
    by (by apply Hgen).
  induction Hall as [|msg rest Hmsg _ IH]; intros st Hi.
  - cbn. repeat split; try done; lia.
  - rewrite processAll_cons. cbn [snd].
    rewrite (isFinalFor_ext cli st k msg) in Hmsg by done.
    destruct (step_keeps_entry st k msg Hmsg) as (Hb & Hc & Hw & Hp).
    destruct (IH (process st msg).2) as (Hb' & Hc' & Hw' & Hp').
    { by rewrite processMessage_IPC. }
    repeat split; eauto; [lia|]. by etrans.
Qed.

Lemma processAll_app (l1 l2 : list kafka.Message) (cli : KafkaClient) :
  run cli (l1 ++ l2) =
  ((run cli l1).1 ++ (run (run cli l1).2 l2).1, (run (run cli l1).2 l2).2).
Proof.
  revert cli. induction l1 as [|msg rest IH]; intros cli.
  - cbn [app processAll fst snd]. by destruct (run cli l2).
  - cbn [app]. rewrite !processAll_cons, IH. reflexivity.
Qed.

(** Non-final fragments of one message, in any order: every call returns
    nil, the fragments that are above the watermark when they arrive are
    appended, and the watermark follows them. *)
Lemma run_non_final (cli0 : KafkaClient) (k : string) (ms : list ipcMessage) :
  Forall (fun m => id m = k /\ chunk m <> total m) ms ->
  forall (msgs : list kafka.Message) (cli : KafkaClient),
    IPC cli = IPC cli0 ->
    carries unmarshalRpc unmarshalSink cli0 msgs ms ->
    (run cli msgs).1 = replicate (length ms) None /\
    buffered (run cli msgs).2 k =
      appendAll (buffered cli k) (map content (accepted (tracked cli k) ms)) /\
    tracked (run cli msgs).2 k = watermark (tracked cli k) ms /\
    IPC (run cli msgs).2 = IPC cli0.
Proof.
  induction 1 as [|m rest [Hid Hne] _ IH]; intros msgs cli Hi Hc.
  - apply Forall2_nil_inv_r in Hc as ->. done.
  - apply Forall2_cons_inv_r in Hc as (msg & msgs' & Hd & Hc & ->).
    rewrite <- (decoded_ext unmarshalRpc unmarshalSink cli cli0 msg Hi) in Hd.
    rewrite processAll_cons. cbn [fst snd length replicate accepted watermark].
    destruct (IH msgs' (process cli msg).2) as (Ho & Hb & Hw & Hi');
      [by rewrite processMessage_IPC|done|].
    rewrite Ho, Hb, Hw. subst k.
    destruct (Z.ltb_spec (tracked cli (id m)) (chunk m)) as [Hlt|Hge].
    + destruct (processMessage_accept unmarshalRpc unmarshalSink cli msg m Hd Hne Hlt)
        as (Hr & Hb1 & Hw1 & _).
      rewrite Hr, Hb1, Hw1. done.
    + destruct (processMessage_stale unmarshalRpc unmarshalSink cli msg m Hd Hne Hge)
        as (Hr & Ht).
      rewrite Hr, (buffered_ext _ cli (id m) Ht), (tracked_ext _ cli (id m) Ht). done.
Qed.

Lemma elems_appendAll (cs : list slice) (s : slice) :
  elems (appendAll s cs) = elems s ++ concat (map elems cs).
Proof.
  revert s. induction cs as [|c rest IH]; intros s.
  - cbn. by rewrite app_nil_r.
  - cbn [appendAll fold_left map concat]. fold (appendAll (append s c) rest).
    by rewrite IH, elems_append, <- app_assoc.
Qed.

(** X4.  What is released when the fragments of a message arrive in any
    order, with repetitions or gaps.  For non-final fragments [ms] of the
    message [k] followed by a final fragment [f] of [k] (of a message of
    more than one chunk): every call before the last returns nil, and the
    last returns the buffer with the contents of exactly those fragments
    appended whose chunk index was above the watermark when they arrived
    (each one above all the ones before it), in arrival order, and then the
    content of [f].  Fragments at or below the watermark, so also a
    lower chunk that arrives after a higher one, are left out, and no check
    for missing chunks is made.  The entry of [k] is removed. *)
Theorem release_in_any_order (cli : KafkaClient) (k : string)
    (msgs : list kafka.Message) (ms : list ipcMessage)
    (msg : kafka.Message) (f : ipcMessage) :
  carries unmarshalRpc unmarshalSink cli msgs ms ->
  Forall (fun m => id m = k /\ chunk m <> total m) ms ->
  decode cli msg = Some f -> id f = k -> chunk f = total f -> total f <> 1 ->
  let kept := accepted (tracked cli k) ms in
  let released :=
    append (appendAll (buffered cli k) (map content kept)) (content f) in
  (run cli (msgs ++ [msg])).1 = replicate (length ms) None ++ [released] /\
  elems released =
    elems (buffered cli k) ++ concat (map elems (map content kept))
      ++ elems (content f) /\
  msgBuffer (run cli (msgs ++ [msg])).2 !! k = None /\
  chunkTracker (run cli (msgs ++ [msg])).2 !! k = None.
Proof.
  intros Hc Hall Hd Hid He Hn1 kept released.
  destruct (run_non_final cli k ms Hall msgs cli) as (Ho & Hb & Hw & Hi); [done|done|].
  rewrite processAll_app. cbn [fst snd]. rewrite processAll_cons.
  cbn [processAll fst snd].
  rewrite <- (decoded_ext unmarshalRpc unmarshalSink (run cli msgs).2 cli msg Hi) in Hd.
  destruct (processMessage_final unmarshalRpc unmarshalSink _ msg f Hd He)
    as (Hr & Hfb & Hfk).
  destruct (Z.eqb_spec (total f) 1) as [|_]; [done|].
  rewrite Hid in Hr, Hfb, Hfk. rewrite Hb in Hr.
  rewrite Ho, Hr, Hfb, Hfk, !lookup_delete_eq.
  subst released kept. rewrite elems_append, elems_appendAll, <- app_assoc.
  done.
Qed.

(** *** What the table holds *)

Lemma append_nil_or_bytes (b c : slice) :
  b = None \/ elems b <> [] -> append b c = None \/ elems (append b c) <> [].
Proof.
  intros Hb. unfold append. destruct (elems c) as [|x e] eqn:Hc; [done|].
  right. cbn. by destruct (elems b).
Qed.

(** Each operation keeps the stored watermarks positive and the stored
    buffers nil or with a byte. *)
Lemma step_wellformed (cli : KafkaClient) (o : op) :
  (forall k w, chunkTracker cli !! k = Some w -> 1 <= w) /\
  (forall k b, msgBuffer cli !! k = Some b -> b = None \/ elems b <> []) ->
  (forall k w, chunkTracker (step unmarshalRpc unmarshalSink cli o) !! k = Some w ->
               1 <= w) /\
  (forall k b, msgBuffer (step unmarshalRpc unmarshalSink cli o) !! k = Some b ->
               b = None \/ elems b <> []).
Proof.
  intros [Hw Hb]. destruct o as [msg|k0]; cbn [step].
  - assert (Hcase : forall k,
      entry (process cli msg).2 k = entry cli k \/
      entry (process cli msg).2 k = (None, None) \/
      exists m, tracked cli k < chunk m /\
        entry (process cli msg).2 k =
        (Some (append (buffered cli k) (content m)), Some (chunk m))).
    { intros k. rewrite processMessage_entry.
      destruct (decode cli msg) as [m|]; [|by left].
      destruct (String.eqb (id m) k); [|by left].
      destruct (chunk m =? total m); [by right; left|].
      destruct (Z.ltb_spec (tracked cli k) (chunk m)); [|by left].
      right; right. by exists m. }
    split.
    + intros k w Hk.
      destruct (Hcase k) as [[= _ Hc]|[[= _ Hc]|(m & Hlt & [= _ Hc])]].
      * rewrite Hc in Hk. by eapply Hw.
      * by rewrite Hc in Hk.
      * rewrite Hc in Hk. injection Hk as <-.
        unfold tracked in Hlt. destruct (chunkTracker cli !! k) as [w0|] eqn:Hk0.
        -- specialize (Hw k w0 Hk0). cbn in Hlt. lia.
        -- cbn in Hlt. lia.
    + intros k b Hk.
      destruct (Hcase k) as [[= Hm _]|[[= Hm _]|(m & _ & [= Hm _])]].
      * rewrite Hm in Hk. by eapply Hb.
      * by rewrite Hm in Hk.
      * rewrite Hm in Hk. injection Hk as <-.
        apply append_nil_or_bytes. unfold buffered.
        destruct (msgBuffer cli !! k) as [b0|] eqn:Hk0; [by eapply Hb|by left].
  - cbn. split.
    + intros k w Hk. apply lookup_delete_Some in Hk as [_ Hk]. by eapply Hw.
    + intros k b Hk. apply lookup_delete_Some in Hk as [_ Hk]. by eapply Hb.
Qed.

Lemma reached_wellformed (cli0 : KafkaClient) (ops : list op) :
  let reached :=
    fold_left (step unmarshalRpc unmarshalSink) ops (createVariables cli0) in
  (forall k w, chunkTracker reached !! k = Some w -> 1 <= w) /\
  (forall k b, msgBuffer reached !! k = Some b -> b = None \/ elems b <> []).
Proof.
  cbv zeta.
  assert (H0 : (forall k w, chunkTracker (createVariables cli0) !! k = Some w -> 1 <= w) /\
    (forall k b, msgBuffer (createVariables cli0) !! k = Some b ->
                 b = None \/ elems b <> [])).
  { cbn. split; intros k x Hk; by rewrite lookup_empty in Hk. }
  revert H0. generalize (createVariables cli0) as st.
  induction ops as [|o rest IH]; intros st Hst; [done|].
  cbn [fold_left]. apply IH, step_wellformed, Hst.
Qed.

(** X5.  In every state reached from the empty table by [processMessage]
    and [bufferCleanup] calls, every stored watermark is at least 1 and
    every stored buffer is nil or holds a byte.  So the final fragment of a
    message of more than one chunk is released (non-nil) exactly when the
    reassembled payload, the buffered bytes and then its content, has at
    least one byte, and what is released is never an empty slice. *)
Theorem multi_chunk_release_iff_bytes (cli0 : KafkaClient) (ops : list op)
    (msg : kafka.Message) (f : ipcMessage) :
  let reached :=
    fold_left (step unmarshalRpc unmarshalSink) ops (createVariables cli0) in
  decode reached msg = Some f -> chunk f = total f -> total f <> 1 ->
  (forall k w, chunkTracker reached !! k = Some w -> 1 <= w) /\
  (forall k b, msgBuffer reached !! k = Some b -> b = None \/ elems b <> []) /\
  elems (process reached msg).1 =
    elems (buffered reached (id f)) ++ elems (content f) /\
  (is_Some (process reached msg).1 <->
   elems (buffered reached (id f)) ++ elems (content f) <> []).
Proof.
  intros reached Hd He Hn1.
  destruct (reached_wellformed cli0 ops) as [Hw Hb]. fold reached in Hw, Hb.
  split; [done|]. split; [done|].
  destruct (processMessage_final unmarshalRpc unmarshalSink reached msg f Hd He)
    as (Hr & _).
  destruct (Z.eqb_spec (total f) 1) as [|_]; [done|].
  rewrite Hr, elems_append. split; [done|].
  rewrite <- elems_append.
  assert (Hwf : append (buffered reached (id f)) (content f) = None \/
                elems (append (buffered reached (id f)) (content f)) <> []).
  { apply append_nil_or_bytes. unfold buffered.
    destruct (msgBuffer reached !! id f) as [b0|] eqn:Hk0; [by eapply Hb|by left]. }
  destruct Hwf as [Hnil|Hbytes].
  - rewrite Hnil. cbn. split; [by intros [? ?]|done].
  - split; [done|]. intros _.
    destruct (append (buffered reached (id f)) (content f)); [eauto|done].
Qed.

(** *** The counters *)

Lemma processMessage_counters (cli : KafkaClient) (msg : kafka.Message) :
  chunkProcessed (process cli msg).2 =
    (chunkProcessed cli + 1 +
     (if String.eqb (IPC cli) "rpc" && decodable unmarshalRpc unmarshalSink cli msg
      then 1 else 0))%nat /\
  msgProcessed (process cli msg).2 = msgProcessed cli.
Proof.
  unfold decodable, decoded, processMessage, getIpcMessage.
  cbn [IPC inc_chunkProcessed].
  destruct (String.eqb (IPC cli) "rpc");
    [destruct (unmarshalRpc _) as [err|pb] | destruct (unmarshalSink _) as [err|pb]];
    cbn [fst snd andb].
  all: try (rewrite bool_decide_eq_false_2 by (by intros [? ?])).
  all: try (rewrite bool_decide_eq_true_2 by eauto).
  all: repeat match goal with |- context [if ?c then _ else _] => destruct c end;
    cbn; split; lia.
Qed.

Lemma decodable_ext (cli cli' : KafkaClient) (msg : kafka.Message) :
  IPC cli = IPC cli' ->
  decodable unmarshalRpc unmarshalSink cli msg =
  decodable unmarshalRpc unmarshalSink cli' msg.
Proof.
  intros Hi. unfold decodable.
  by rewrite (decoded_ext unmarshalRpc unmarshalSink cli cli' msg Hi).
Qed.

(** X6.  [chunkProcessed] counts every message that [processMessage] is
    given, decodable or not, once in sink mode.  In rpc mode every message
    that decodes is counted twice (once by [processMessage] and once more by
    [getIpcMessage]) and every other message once.  [processMessage] never
    touches [msgProcessed]. *)
Theorem chunkProcessed_counts (cli : KafkaClient) (msgs : list kafka.Message) :
  chunkProcessed (run cli msgs).2 =
    (chunkProcessed cli + length msgs +
     (if String.eqb (IPC cli) "rpc"
      then length (List.filter (decodable unmarshalRpc unmarshalSink cli) msgs)
      else 0))%nat /\
  msgProcessed (run cli msgs).2 = msgProcessed cli.
Proof.
  enough (Hgen : forall st, IPC st = IPC cli ->
    chunkProcessed (run st msgs).2 =
      (chunkProcessed st + length msgs +
       (if String.eqb (IPC cli) "rpc"
        then length (List.filter (decodable unmarshalRpc unmarshalSink cli) msgs)
        else 0))%nat /\
    msgProcessed (run st msgs).2 = msgProcessed st) by (by apply Hgen).
  induction msgs as [|msg rest IH]; intros st Hi.
  - cbn. destruct (String.eqb (IPC cli) "rpc"); split; lia.
  - rewrite processAll_cons. cbn [snd length List.filter].
    destruct (IH (process st msg).2) as [Hc Hm]; [by rewrite processMessage_IPC|].
    destruct (processMessage_counters st msg) as [Hc1 Hm1].
    rewrite Hc, Hm, Hc1, Hm1, Hi, (decodable_ext st cli msg Hi).
    destruct (String.eqb (IPC cli) "rpc");
      destruct (decodable unmarshalRpc unmarshalSink cli msg); cbn; split; lia.
Qed.

End Entries.

(** * Further properties of the dispatch loop *)
Section LoopFacts.

Variable unmarshalRpc : list byte -> string + rpc.RpcMessageProto.
Variable unmarshalSink : list byte -> string + sink.SinkMessage.
Variable unmarshalTelemetry : list byte -> string + telemetry.TelemetryMessageLog.
Variable FlowMessage : Type.
Variable unmarshalFlow : list byte -> string + FlowMessage.
Variable marshalIndent : FlowMessage -> slice.
Context {H : Type}.
Variable action : slice -> H -> H.

Local Abbreviation process := (processMessage unmarshalRpc unmarshalSink).
Local Abbreviation run := (processAll unmarshalRpc unmarshalSink).
Local Abbreviation unwrap :=
  (processTelemetry unmarshalTelemetry FlowMessage unmarshalFlow marshalIndent action).
Local Abbreviation handle :=
  (dispatch unmarshalRpc unmarshalSink unmarshalTelemetry FlowMessage unmarshalFlow
     marshalIndent action).
Local Abbreviation poll :=
  (loop unmarshalRpc unmarshalSink unmarshalTelemetry FlowMessage unmarshalFlow
     marshalIndent action).

(** What the loop does with a released payload. *)
Local Abbreviation deliver tel :=
  (fun (h : H) (data : slice) => if tel : bool then (unwrap data h).2 else action data h).






End LoopFacts.

(** * Further properties of the initialisation *)
Section StartupFacts.

Variable NewConsumer : string -> string -> list string -> string + KafkaConsumer.

Local Abbreviation init := (Initialize NewConsumer).

(** X8.  When [Initialize] returns no error, the client had no consumer
    before, it now holds the consumer that the library created and that
    subscribed to [Topic], both maps of the table are empty, both counters
    are zero, the mode is [sink] or [rpc], and the rest of the
    configuration is as it was. *)
Theorem Initialize_success_state (cli : KafkaClient) :
  (init cli).1 = None ->
  let cli' := (init cli).2 in
  consumer cli = NilInterface /\
  (exists c,
     NewConsumer (Bootstrap cli) (GroupID cli) (Parameters cli) = inr c /\
     Subscribe c (Topic cli) = None /\ consumer cli' = Consumer c) /\
  msgBuffer cli' = ∅ /\ chunkTracker cli' = ∅ /\
  msgProcessed cli' = 0%nat /\ chunkProcessed cli' = 0%nat /\
  (IPC cli' = "sink"%string \/ IPC cli' = "rpc"%string) /\
  Bootstrap cli' = Bootstrap cli /\ Topic cli' = Topic cli /\
  GroupID cli' = GroupID cli /\ Parameters cli' = Parameters cli /\
  IsTelemetry cli' = IsTelemetry cli /\ stopping cli' = stopping cli.
Proof.
  unfold Initialize. destruct (consumer cli) eqn:Hcons; cbn [fst snd]; try done.
  destruct (checkIPC cli) as [err|cli1] eqn:Hchk; cbn [fst snd]; [done|].
  assert (Hrest : IsTelemetry cli1 = IsTelemetry cli /\ stopping cli1 = stopping cli).
  { unfold checkIPC in Hchk.
    destruct (String.eqb (IPC cli) ""); [by injection Hchk as <-|].
    destruct (negb _ && negb _); [done|by injection Hchk as <-]. }
  destruct Hrest as [HT HS].
  apply checkIPC_mode in Hchk as (_ & HB & HG & HP & HTo & Hm).
  rewrite HB, HG, HP.
  destruct (NewConsumer _ _ _) as [err|c]; cbn [fst snd]; [done|].
  cbn [Topic set_consumer]. rewrite HTo.
  destruct (Subscribe c (Topic cli)) eqn:Hsub; cbn [fst snd]; [done|].
  intros _. cbn.
  split; [done|]. split; [by exists c|].
  repeat split; try done.
  destruct Hm as [[_ ->]|[-> Hm]]; tauto.
Qed.

(** X9.  [Initialize] can be tried again only after a mode error, which
    leaves the client as it was.  After every other result (success, a
    consumer that could not be created, a failed subscription, or a client
    that already had a consumer) the consumer field is set, and every
    later call fails with the error of an initialised consumer and changes
    nothing: the table and the counters of a running client are not
    reset. *)
Theorem Initialize_again (cli : KafkaClient) :
  ((exists ipc, (init cli).1 = Some (ErrInvalidIPC ipc)) /\ (init cli).2 = cli) \/
  init (init cli).2 = (Some ErrAlreadyInitialized, (init cli).2).
Proof.
  assert (Hset : forall x, consumer x <> NilInterface ->
                 init x = (Some ErrAlreadyInitialized, x)).
  { intros x Hx. unfold Initialize. by destruct (consumer x). }
  assert (Hfirst :
    ((exists ipc, (init cli).1 = Some (ErrInvalidIPC ipc)) /\ (init cli).2 = cli) \/
    consumer (init cli).2 <> NilInterface).
  { unfold Initialize. destruct (consumer cli) eqn:Hcons; cbn [fst snd].
    - destruct (checkIPC cli) as [err|cli1] eqn:Hchk; cbn [fst snd].
      + left. split; [|done]. unfold checkIPC in Hchk.
        destruct (String.eqb (IPC cli) ""); [done|].
        destruct (negb _ && negb _); [|done]. injection Hchk as <-. eauto.
      + right. destruct (NewConsumer _ _ _) as [err|c]; cbn [fst snd]; [done|].
        destruct (Subscribe c _); cbn [fst snd]; done.
    - right. by rewrite Hcons.
    - right. by rewrite Hcons. }
  destruct Hfirst as [Hmode|Hcons]; [by left|right].
  by apply Hset.
Qed.

End StartupFacts.

(** * Properties of the configuration and the flags *)
Section ConfigFacts.

Variable SetKey :
  gmap string ConfigValue -> string -> ConfigValue ->
  option string * gmap string ConfigValue.

Lemma splitOn_length (c : ascii) (s : string) :
  length (splitOn c s) = S (occurrences c s).
Proof.
  induction s as [|a rest IH]; [reflexivity|].
  cbn [splitOn occurrences]. destruct (Ascii.eqb a c).
  - cbn [length]. by rewrite IH.
  - destruct (splitOn c rest) as [|piece pieces]; [done|]. cbn [length] in *. lia.
Qed.

Lemma splitOn_none (c : ascii) (s : string) :
  occurrences c s = 0%nat -> splitOn c s = [s].
Proof.
  induction s as [|a rest IH]; [reflexivity|].
  cbn [splitOn occurrences]. destruct (Ascii.eqb a c); [done|].
  intros H0. by rewrite IH.
Qed.

Lemma splitOn_one (c : ascii) (s : string) :
  occurrences c s = 1%nat -> splitOn c s = [before c s; after c s].
Proof.
  induction s as [|a rest IH]; [done|].
  cbn [splitOn occurrences before after]. destruct (Ascii.eqb a c).
  - intros H1. rewrite splitOn_none by lia. reflexivity.
  - intros H1. by rewrite IH.
Qed.

(** The two parts of a parameter with one [=] sign. *)
Lemma before_after (c : ascii) (s : string) :
  (1 <= occurrences c s)%nat ->
  s = (before c s ++ String c (after c s))%string /\
  occurrences c (before c s) = 0%nat /\
  occurrences c (after c s) = (occurrences c s - 1)%nat.
Proof.
  induction s as [|a rest IH]; [cbn; lia|].
  cbn [occurrences before after]. destruct (Ascii.eqb_spec a c) as [->|Hne].
  - intros _. cbn. split; [done|]. split; [done|lia].
  - intros H1. destruct IH as (He & Hb & Ha); [lia|].
    split; [|split].
    + change (String a rest = String a (before c rest ++ String c (after c rest))%string).
      by rewrite <- He.
    + cbn [occurrences]. destruct (Ascii.eqb_spec a c) as [|_]; [done|]. by rewrite Hb.
    + rewrite Ha. cbn. lia.
Qed.

(** One parameter: set when it has exactly one [=] sign, skipped
    otherwise. *)
Lemma addParameter_cases (config : gmap string ConfigValue) (kv : string) :
  addParameter SetKey config kv =
  if Nat.eqb (occurrences "=" kv) 1
  then (SetKey config (before "=" kv) (ConfigString (after "=" kv))).2
  else config.
Proof.
  unfold addParameter. destruct (Nat.eqb_spec (occurrences "=" kv) 1) as [H1|H1].
  - by rewrite splitOn_one.
  - pose proof (splitOn_length "=" kv) as Hl.
    destruct (splitOn "=" kv) as [|a [|b [|d rest]]]; try done.
    cbn [length] in Hl. lia.
Qed.

(** X10.  [createConfig] starts from the four fixed entries and then goes
    through the parameters in order: a parameter with exactly one [=] sign
    is passed to [SetKey] as the text before the sign and the text after
    it; a parameter without the sign, or with more than one (so a value
    that contains one), is skipped and does not reach the
    configuration. *)
Theorem createConfig_parameters (cli : KafkaClient) :
  createConfig SetKey cli =
  fold_left
    (fun config kv =>
       (SetKey config (before "=" kv) (ConfigString (after "=" kv))).2)
    (List.filter (fun kv => Nat.eqb (occurrences "=" kv) 1) (Parameters cli))
    ({[ "bootstrap.servers"%string := ConfigString (Bootstrap cli);
        "group.id"%string := ConfigString (GroupID cli);
        "session.timeout.ms"%string := ConfigInt 6000;
        "broker.address.family"%string := ConfigString "v4" ]}
       : gmap string ConfigValue) /\
  forall kv, occurrences "=" kv = 1%nat ->
    kv = (before "=" kv ++ "=" ++ after "=" kv)%string /\
    occurrences "=" (before "=" kv) = 0%nat /\
    occurrences "=" (after "=" kv) = 0%nat.
Proof.
  split.
  - unfold createConfig. cbv zeta.
    generalize ({[ "bootstrap.servers"%string := ConfigString (Bootstrap cli);
        "group.id"%string := ConfigString (GroupID cli);
        "session.timeout.ms"%string := ConfigInt 6000;
        "broker.address.family"%string := ConfigString "v4" ]}
       : gmap string ConfigValue) as config.
    induction (Parameters cli) as [|kv rest IH]; intros config; [done|].
    cbn [fold_left List.filter]. rewrite addParameter_cases.
    destruct (Nat.eqb (occurrences "=" kv) 1); cbn [fold_left]; apply IH.
  - intros kv H1. destruct (before_after "=" kv) as (He & Hb & Ha); [lia|].
    split; [exact He|]. split; [done|]. rewrite Ha, H1. done.
Qed.

Lemma string_app_assoc (a b c : string) :
  ((a ++ b) ++ c = a ++ b ++ c)%string.
Proof.
  induction a as [|x a IH]; [done|].
  change (String x ((a ++ b) ++ c) = String x (a ++ b ++ c))%string.
  by rewrite IH.
Qed.

Lemma join_snoc (sep : string) (p : list string) (v : string) :
  join sep (p ++ [v]) =
  match p with
  | [] => v
  | _ => (join sep p ++ sep ++ v)%string
  end.
Proof.
  induction p as [|a [|b rest] IH]; [done|done|].
  change (join sep ((a :: b :: rest) ++ [v]))
    with (a ++ sep ++ join sep ((b :: rest) ++ [v]))%string.
  rewrite IH.
  change (join sep (a :: b :: rest)) with (a ++ sep ++ join sep (b :: rest))%string.
  by rewrite !string_app_assoc.
Qed.

(** X11.  [Set] appends the value to the flags, after the ones given
    before, and never fails; [String] of the result is the value alone for
    the first flag, and otherwise the text of the flags before, then a comma
    and a space, then the value. *)
Theorem Propertites_Set_String (p : list string) (value : string) :
  (Propertites_Set p value).1 = p ++ [value] /\
  (Propertites_Set p value).2 = None /\
  Propertites_String (Propertites_Set p value).1 =
  match p with
  | [] => value
  | _ => (Propertites_String p ++ ", " ++ value)%string
  end.
Proof.
  split; [done|]. split; [done|].
  unfold Propertites_String, Propertites_Set. cbn [fst]. apply join_snoc.
Qed.

End ConfigFacts.

(** * Redelivery and reuse of an identity *)
Section Redelivery.

Variable unmarshalRpc : list byte -> string + rpc.RpcMessageProto.
Variable unmarshalSink : list byte -> string + sink.SinkMessage.

Local Abbreviation process := (processMessage unmarshalRpc unmarshalSink).
Local Abbreviation decode := (decoded unmarshalRpc unmarshalSink).
Local Abbreviation run := (processAll unmarshalRpc unmarshalSink).

Lemma watermark_ge (ms : list ipcMessage) (w : Z) :
  w <= watermark w ms /\ Forall (fun m => chunk m <= watermark w ms) ms.
Proof.
  revert w. induction ms as [|m rest IH]; intros w; [by split; [cbn; lia|]|].
  cbn [watermark].
  destruct (IH (if w <? chunk m then chunk m else w)) as [Hw Hall].
  destruct (Z.ltb_spec w (chunk m)); (split; [lia|constructor; [lia|done]]).
Qed.

(** Non-final fragments of [k] at or below the watermark, in any number and
    order: every call returns nil and the table stays as it is. *)
Lemma run_stale (cli0 : KafkaClient) (k : string) (ms : list ipcMessage) :
  forall (msgs : list kafka.Message) (cli : KafkaClient),
    IPC cli = IPC cli0 ->
    carries unmarshalRpc unmarshalSink cli0 msgs ms ->
    Forall (fun m => id m = k /\ chunk m <> total m /\ chunk m <= tracked cli k) ms ->
    (run cli msgs).1 = replicate (length ms) None /\
    table (run cli msgs).2 = table cli.
Proof.
  induction ms as [|m rest IH]; intros msgs cli Hi Hc Hall.
  - apply Forall2_nil_inv_r in Hc as ->. done.
  - apply Forall2_cons_inv_r in Hc as (msg & msgs' & Hd & Hc & ->).
    apply Forall_cons in Hall as [(Hid & Hne & Hle) Hall].
    rewrite <- (decoded_ext unmarshalRpc unmarshalSink cli cli0 msg Hi) in Hd.
    rewrite processAll_cons. cbn [fst snd length replicate]. subst k.
    destruct (processMessage_stale unmarshalRpc unmarshalSink cli msg m Hd Hne Hle)
      as [Hr Ht].
    destruct (IH msgs' (process cli msg).2) as [Ho Hf].
    + by rewrite processMessage_IPC.
    + done.
    + eapply Forall_impl; [exact Hall|]. intros m' (Hid' & Hne' & Hle').
      rewrite (tracked_ext _ cli (id m) Ht). done.
    + by rewrite Hr, Ho, Hf, Ht.
Qed.

(** X12.  Redelivery of what was processed is harmless while the message
    is in flight: after a run over non-final fragments of one message, the
    same fragments delivered again, in any order, any number of times and
    with any content, are all discarded; every call returns nil and the
    table does not change. *)
Theorem redelivered_fragments_discarded (cli : KafkaClient) (k : string)
    (msgs again : list kafka.Message) (ms ms' : list ipcMessage) :
  carries unmarshalRpc unmarshalSink cli msgs ms ->
  Forall (fun m => id m = k /\ chunk m <> total m) ms ->
  carries unmarshalRpc unmarshalSink cli again ms' ->
  Forall (fun m' => id m' = k /\ chunk m' <> total m' /\
                    exists m, m ∈ ms /\ chunk m' = chunk m) ms' ->
  let before := (run cli msgs).2 in
  (run before again).1 = replicate (length ms') None /\
  table (run before again).2 = table before.
Proof.
  intros Hc Hall Hc' Hall' before.
  destruct (run_non_final unmarshalRpc unmarshalSink cli k ms Hall msgs cli)
    as (_ & _ & Hw & Hi); [done|done|].
  fold before in Hw, Hi.
  apply (run_stale cli k ms' again before Hi Hc').
  eapply Forall_impl; [exact Hall'|].
  intros m' (Hid & Hne & m & Hin & Hch). split; [done|]. split; [done|].
  rewrite Hw, Hch.
  destruct (watermark_ge ms (tracked cli k)) as [_ Hge].
  rewrite Forall_forall in Hge. by apply Hge.
Qed.

(** A message delivered in chunk order to a client without an entry for
    it. *)
Lemma run_fresh_message (cli0 cli : KafkaClient) (k : string) (cs : list slice)
    (msgs : list kafka.Message) :
  IPC cli = IPC cli0 ->
  msgBuffer cli !! k = None -> chunkTracker cli !! k = None ->
  cs <> [] ->
  carries unmarshalRpc unmarshalSink cli0 msgs (fragments k cs) ->
  exists final : slice,
    (run cli msgs).1 = replicate (length cs - 1) None ++ [final] /\
    elems final = concat (map elems cs) /\
    msgBuffer (run cli msgs).2 = delete k (msgBuffer cli) /\
    chunkTracker (run cli msgs).2 = delete k (chunkTracker cli).
Proof.
  intros Hi Hb Hk Hne Hc. unfold fragments in Hc.
  destruct (Z.eq_dec (Z.of_nat (length cs)) 1) as [H1|H1].
  - destruct cs as [|c [|c' rest]]; [done| |cbn [length] in H1; lia].
    cbn [fragmentsFrom length] in Hc.
    apply Forall2_cons_inv_r in Hc as (msg & msgs' & Hd & Hc & ->).
    apply Forall2_nil_inv_r in Hc as ->.
    rewrite <- (decoded_ext unmarshalRpc unmarshalSink cli cli0 msg Hi) in Hd.
    destruct (processMessage_final unmarshalRpc unmarshalSink cli msg _ Hd)
      as (Hr & Hfb & Hfk); [done|].
    cbn [total id content] in Hr, Hfb, Hfk. cbn in Hr.
    exists c. rewrite processAll_cons. cbn [processAll fst snd].
    rewrite Hr. cbn. by rewrite app_nil_r.
  - destruct (run_fragmentsFrom unmarshalRpc unmarshalSink cli0 k _ cs H1 1 msgs cli)
      as (final & Ho & He & Hfb & Hfk); try done; try lia.
    + unfold tracked. rewrite Hk. cbn. lia.
    + exists final. unfold buffered in He. rewrite Hb in He. done.
Qed.

(** X13.  An identity can be used again after its message completed: once
    a final fragment of [k] has been processed (whatever the table held),
    a new message with the same identity, delivered in chunk order, is
    reassembled from nothing; its last call returns the concatenation of
    its own contents only, the calls before return nil, and no entry is
    left. *)
Theorem identity_reusable_after_final (cli : KafkaClient) (msg : kafka.Message)
    (f : ipcMessage) (cs : list slice) (msgs : list kafka.Message) :
  decode cli msg = Some f -> chunk f = total f ->
  cs <> [] ->
  carries unmarshalRpc unmarshalSink cli msgs (fragments (id f) cs) ->
  let after := (process cli msg).2 in
  exists final : slice,
    (run after msgs).1 = replicate (length cs - 1) None ++ [final] /\
    elems final = concat (map elems cs) /\
    msgBuffer (run after msgs).2 !! id f = None /\
    chunkTracker (run after msgs).2 !! id f = None.
Proof.
  intros Hd He Hne Hc after.
  destruct (processMessage_final unmarshalRpc unmarshalSink cli msg f Hd He)
    as (_ & Hb & Hk).
  destruct (run_fresh_message cli after (id f) cs msgs)
    as (final & Ho & Hel & Hfb & Hfk); try done.
  - subst after. by rewrite processMessage_IPC.
  - subst after. by rewrite Hb, lookup_delete_eq.
  - subst after. by rewrite Hk, lookup_delete_eq.
  - exists final. by rewrite Ho, Hel, Hfb, Hfk, !lookup_delete_eq.
Qed.

End Redelivery.

(** * The program from start to the handler *)
Section Program.

Variable unmarshalRpc : list byte -> string + rpc.RpcMessageProto.
Variable unmarshalSink : list byte -> string + sink.SinkMessage.
Variable unmarshalTelemetry : list byte -> string + telemetry.TelemetryMessageLog.
Variable FlowMessage : Type.
Variable unmarshalFlow : list byte -> string + FlowMessage.
Variable marshalIndent : FlowMessage -> slice.
Variable NewConsumer : string -> string -> list string -> string + KafkaConsumer.
Context {H : Type}.
Variable action : slice -> H -> H.

Local Abbreviation init := (Initialize NewConsumer).
Local Abbreviation run := (processAll unmarshalRpc unmarshalSink).
Local Abbreviation unwrap :=
  (processTelemetry unmarshalTelemetry FlowMessage unmarshalFlow marshalIndent action).



End Program.

(** * The further properties on concrete messages *)

(** X1 on a fragment of [m2] while [m1] is in flight. *)
Lemma other_entries_untouched_m2 :
  let cli := Sample2.inFlight in
  let msg := Sample.frame "m2" 0 2 "XY" in
  let after := (processMessage Sample.unmarshalRpc Sample.unmarshalSink cli msg).2 in
  hasId Sample.unmarshalRpc Sample.unmarshalSink cli "m1" msg = false /\
  (msgBuffer after !! "m1"%string = msgBuffer cli !! "m1"%string /\
   chunkTracker after !! "m1"%string = chunkTracker cli !! "m1"%string /\
   buffered after "m1" = buffered cli "m1" /\
   tracked after "m1" = tracked cli "m1").
Proof.
  cbv zeta. split; [vm_compute; reflexivity|].
  apply (other_entries_untouched Sample.unmarshalRpc Sample.unmarshalSink
           Sample2.inFlight (Sample.frame "m2" 0 2 "XY") "m1").
  vm_compute; reflexivity.
Defined.

(** X3 on [m1] in flight, while [m2] is delivered whole and [m1] gets its
    second chunk. *)
Lemma entry_kept_m1 :
  let cli := Sample2.inFlight in
  let msgs :=
    [Sample.frame "m2" 0 2 "XY"; Sample.frame "m1" 1 3 "CD";
     Sample.frame "m2" 1 2 "Z"] in
  let after := (processAll Sample.unmarshalRpc Sample.unmarshalSink cli msgs).2 in
  (is_Some (msgBuffer cli !! "m1"%string) -> is_Some (msgBuffer after !! "m1"%string)) /\
  (is_Some (chunkTracker cli !! "m1"%string) ->
   is_Some (chunkTracker after !! "m1"%string)) /\
  tracked cli "m1" <= tracked after "m1" /\
  elems (buffered cli "m1") `prefix_of` elems (buffered after "m1").
Proof.
  cbv zeta.
  apply (entry_kept_until_final Sample.unmarshalRpc Sample.unmarshalSink
           Sample2.inFlight "m1").
  repeat constructor.
Defined.

(** X4 on chunks 1/4 [AB], 3/4 [EF], 2/4 [CD] and 4/4 [GH] of [m1]: chunk 2
    arrives after chunk 3 and is left out. *)
Lemma release_out_of_order :
  let msgs :=
    [Sample.frame "m1" 0 4 "AB"; Sample.frame "m1" 2 4 "EF";
     Sample.frame "m1" 1 4 "CD"] in
  let ms :=
    [{| chunk := 1; total := 4; id := "m1"; content := bytes "AB" |};
     {| chunk := 3; total := 4; id := "m1"; content := bytes "EF" |};
     {| chunk := 2; total := 4; id := "m1"; content := bytes "CD" |}] in
  let msg := Sample.frame "m1" 3 4 "GH" in
  let kept := accepted (tracked Sample.ready "m1") ms in
  let released :=
    append (appendAll (buffered Sample.ready "m1") (map content kept)) (bytes "GH") in
  released = bytes "ABEFGH" /\
  ((processAll Sample.unmarshalRpc Sample.unmarshalSink Sample.ready (msgs ++ [msg])).1
   = replicate (length ms) None ++ [released] /\
   elems released =
     elems (buffered Sample.ready "m1") ++ concat (map elems (map content kept))
       ++ elems (bytes "GH") /\
   msgBuffer (processAll Sample.unmarshalRpc Sample.unmarshalSink Sample.ready
                (msgs ++ [msg])).2 !! "m1"%string = None /\
   chunkTracker (processAll Sample.unmarshalRpc Sample.unmarshalSink Sample.ready
                   (msgs ++ [msg])).2 !! "m1"%string = None).
Proof.
  cbv zeta. split; [vm_compute; reflexivity|].
  apply (release_in_any_order Sample.unmarshalRpc Sample.unmarshalSink Sample.ready
           "m1" _ _ (Sample.frame "m1" 3 4 "GH")
           {| chunk := 4; total := 4; id := "m1"; content := bytes "GH" |}).
  - repeat constructor.
  - repeat constructor; discriminate.
  - vm_compute; reflexivity.
  - reflexivity.
  - reflexivity.
  - discriminate.
Defined.

(** X5 on the final chunk 2/2 [CD] of [m1] after chunk 1/2 [AB]. *)
Lemma multi_chunk_release_m1 :
  let reached :=
    fold_left (step Sample.unmarshalRpc Sample.unmarshalSink)
      [OpProcess (Sample.frame "m1" 0 2 "AB")] (createVariables Sample.ready) in
  let msg := Sample.frame "m1" 1 2 "CD" in
  (forall k w, chunkTracker reached !! k = Some w -> 1 <= w) /\
  (forall k b, msgBuffer reached !! k = Some b -> b = None \/ elems b <> []) /\
  elems (processMessage Sample.unmarshalRpc Sample.unmarshalSink reached msg).1 =
    elems (buffered reached "m1") ++ elems (bytes "CD") /\
  (is_Some (processMessage Sample.unmarshalRpc Sample.unmarshalSink reached msg).1 <->
   elems (buffered reached "m1") ++ elems (bytes "CD") <> []).
Proof.
  cbv zeta.
  apply (multi_chunk_release_iff_bytes Sample.unmarshalRpc Sample.unmarshalSink
           Sample.ready [OpProcess (Sample.frame "m1" 0 2 "AB")]
           (Sample.frame "m1" 1 2 "CD")
           {| chunk := 2; total := 2; id := "m1"; content := bytes "CD" |}).
  - vm_compute; reflexivity.
  - reflexivity.
  - discriminate.
Defined.


(** X8 on the client of the default flags. *)
Lemma Initialize_success_flags :
  let cli := Sample.flags in
  let cli' := (Initialize Sample.NewConsumer cli).2 in
  (Initialize Sample.NewConsumer cli).1 = None /\
  (consumer cli = NilInterface /\
   (exists c,
      Sample.NewConsumer (Bootstrap cli) (GroupID cli) (Parameters cli) = inr c /\
      Subscribe c (Topic cli) = None /\ consumer cli' = Consumer c) /\
   msgBuffer cli' = ∅ /\ chunkTracker cli' = ∅ /\
   msgProcessed cli' = 0%nat /\ chunkProcessed cli' = 0%nat /\
   (IPC cli' = "sink"%string \/ IPC cli' = "rpc"%string) /\
   Bootstrap cli' = Bootstrap cli /\ Topic cli' = Topic cli /\
   GroupID cli' = GroupID cli /\ Parameters cli' = Parameters cli /\
   IsTelemetry cli' = IsTelemetry cli /\ stopping cli' = stopping cli).
Proof.
  cbv zeta. split; [vm_compute; reflexivity|].
  apply (Initialize_success_state Sample.NewConsumer Sample.flags).
  vm_compute; reflexivity.
Defined.

(** X12 on chunks 1/3 and 2/3 of [m1], delivered again afterwards, the
    first one twice and once with another content. *)
Lemma redelivered_m1_discarded :
  let msgs := [Sample.frame "m1" 0 3 "AB"; Sample.frame "m1" 1 3 "CD"] in
  let again :=
    [Sample.frame "m1" 0 3 "AB"; Sample.frame "m1" 1 3 "CD";
     Sample.frame "m1" 0 3 "ZZ"] in
  let before :=
    (processAll Sample.unmarshalRpc Sample.unmarshalSink Sample.ready msgs).2 in
  (processAll Sample.unmarshalRpc Sample.unmarshalSink before again).1
    = replicate 3 None /\
  table (processAll Sample.unmarshalRpc Sample.unmarshalSink before again).2
    = table before.
Proof.
  cbv zeta.
  apply (redelivered_fragments_discarded Sample.unmarshalRpc Sample.unmarshalSink
           Sample.ready "m1" _ _
           [{| chunk := 1; total := 3; id := "m1"; content := bytes "AB" |};
            {| chunk := 2; total := 3; id := "m1"; content := bytes "CD" |}]
           [{| chunk := 1; total := 3; id := "m1"; content := bytes "AB" |};
            {| chunk := 2; total := 3; id := "m1"; content := bytes "CD" |};
            {| chunk := 1; total := 3; id := "m1"; content := bytes "ZZ" |}]).
  - repeat constructor.
  - repeat constructor; discriminate.
  - repeat constructor.
  - repeat (apply Forall_cons; split;
            [split; [reflexivity|split; [discriminate|]]|]);
      [eexists; split; [apply list_elem_of_here|reflexivity]
      |eexists; split; [apply list_elem_of_further, list_elem_of_here|reflexivity]
      |eexists; split; [apply list_elem_of_here|reflexivity]
      |apply Forall_nil_2].
Defined.

(** X13 on [m1]: after its message [AB], [CD] completed, a new message
    [XY], [Z] with the same identity. *)
Lemma identity_reused_m1 :
  let cli := (Sample.process Sample.ready (Sample.frame "m1" 0 2 "AB")).2 in
  let msg := Sample.frame "m1" 1 2 "CD" in
  let msgs := [Sample.frame "m1" 0 2 "XY"; Sample.frame "m1" 1 2 "Z"] in
  let cs := [bytes "XY"; bytes "Z"] in
  let after := (processMessage Sample.unmarshalRpc Sample.unmarshalSink cli msg).2 in
  exists final : slice,
    (processAll Sample.unmarshalRpc Sample.unmarshalSink after msgs).1
      = replicate (length cs - 1) None ++ [final] /\
    elems final = concat (map elems cs) /\
    msgBuffer (processAll Sample.unmarshalRpc Sample.unmarshalSink after msgs).2
      !! "m1"%string = None /\
    chunkTracker (processAll Sample.unmarshalRpc Sample.unmarshalSink after msgs).2
      !! "m1"%string = None.
Proof.
  cbv zeta.
  apply (identity_reusable_after_final Sample.unmarshalRpc Sample.unmarshalSink
           (Sample.process Sample.ready (Sample.frame "m1" 0 2 "AB")).2
           (Sample.frame "m1" 1 2 "CD")
           {| chunk := 2; total := 2; id := "m1"; content := bytes "CD" |}
           [bytes "XY"; bytes "Z"]).
  - vm_compute; reflexivity.
  - reflexivity.
  - discriminate.
  - repeat constructor.
Defined.


(** [-parameter acks=1 -parameter verbose -parameter a=b=c]: only the first
    reaches the configuration. *)
Example createConfig_acks :
  let cli := fst (Propertites_Set (fst (Propertites_Set (fst
               (Propertites_Set [] "acks=1")) "verbose")) "a=b=c") in
  let config :=
    createConfig Sample2.SetKey
      {| Bootstrap := "localhost:9092"; Topic := "OpenNMS.Sink.Trap";
         GroupID := "sink-go-client"; Parameters := cli; IPC := "sink";
         IsTelemetry := false; consumer := NilInterface;
         msgBuffer := ∅; chunkTracker := ∅; stopping := false;
         msgProcessed := 0; chunkProcessed := 0 |} in
  Propertites_String cli = "acks=1, verbose, a=b=c"%string /\
  config !! "acks"%string = Some (ConfigString "1") /\
  config !! "a"%string = None /\ config !! "verbose"%string = None /\
  config !! "group.id"%string = Some (ConfigString "sink-go-client") /\
  config !! "session.timeout.ms"%string = Some (ConfigInt 6000) /\
  size config = 5%nat.
Proof. vm_compute. repeat split; reflexivity. Qed.

(** Two chunks and a malformed message: three counts in sink mode, five in
    rpc mode. *)
Example chunkProcessed_sink_and_rpc :
  let msgs :=
    [Sample.frame "m1" 0 2 "AB"; {| kafka.Value := [] |};
     Sample.frame "m1" 1 2 "CD"] in
  chunkProcessed (Sample.processList Sample.ready msgs).2 = 3%nat /\
  chunkProcessed (Sample.processList Sample.readyRpc msgs).2 = 5%nat /\
  (Sample.processList Sample.readyRpc msgs).1 = [None; None; bytes "ABCD"].
Proof. vm_compute. repeat split; reflexivity. Qed.

(** After a consumer that could not be created, [Initialize] reports an
    initialised consumer, with or without the rejected parameter. *)
Example Initialize_after_creation_failure :
  let failed := (Initialize Sample.NewConsumer Sample.flagsFoo).2 in
  (Initialize Sample.NewConsumer failed).1 = Some ErrAlreadyInitialized /\
  (Initialize Sample.NewConsumer
     {| Bootstrap := Bootstrap failed; Topic := Topic failed;
        GroupID := GroupID failed; Parameters := []; IPC := IPC failed;
        IsTelemetry := IsTelemetry failed; consumer := consumer failed;
        msgBuffer := msgBuffer failed; chunkTracker := chunkTracker failed;
        stopping := stopping failed; msgProcessed := msgProcessed failed;
        chunkProcessed := chunkProcessed failed |}).1 = Some ErrAlreadyInitialized.
Proof. vm_compute. split; reflexivity. Qed.
